(** * api-test.py: the API conformance harness, embedded and verified

    The script sends a fixed battery of nine requests to one HTTP endpoint and
    judges every response.  This development embeds the script function by
    function (same names, same control flow) and proves the properties of its
    specification against that embedding.

    Modelling choices, all taken from the way the script is written:
    - a Python [str] is a Rocq [string] holding its UTF-8 encoding (equality
      and the substring test of [in] agree with Python's on valid UTF-8);
    - the value returned by [response.json()] is a [json] tree; a JSON object
      is the list of the items of the resulting [dict], looked up by key (on a
      list that repeats a key, the first binding is the one the dict holds);
    - a [dict] of headers and [os.environ] are [gmap]s; a value of a headers
      [dict] is a [str] or [None], an [option string];
    - exceptions are values [exn] threaded through a state-and-error monad;
      only exceptions deriving from [Exception] are modelled, the interpreter
      signals [KeyboardInterrupt] and [SystemExit] coming from outside are not;
    - [print] appends to an output log and never fails; the text of an
      f-string is a list of fragments, so that values formatted by Python's
      own [str], [repr] and [json.dumps] are carried as they are;
    - the network and the [requests] library are an arbitrary function from
      the requests sent so far and the current request to an outcome (a
      response, or a raised exception); of what [requests] does before the
      request leaves, only the preparation of the headers is modelled
      ([prepare_headers]). *)

From Stdlib Require Import ZArith String Ascii List Bool Lia.
From stdpp Require Import base strings gmap list.

Set Warnings "-register-all".
Open Scope string_scope.
Open Scope list_scope.
Open Scope Z_scope.

(** ** Strings *)

Definition nl : string := String "010"%char "".

(** [sub in s] for two Python strings. *)
Fixpoint str_contains (sub s : string) : bool :=
  String.prefix sub s ||
  match s with
  | EmptyString => false
  | String _ s' => str_contains sub s'
  end.

(** A UTF-8 continuation byte (10xxxxxx): it belongs to the character that
    started before it. *)
Definition utf8_continuation (c : ascii) : bool :=
  let n := N_of_ascii c in (128 <=? n)%N && (n <? 192)%N.

(** [s[:n]]: the first [n] characters (code points) of [s]. *)
Fixpoint str_take (n : nat) (s : string) : string :=
  match s with
  | EmptyString => EmptyString
  | String c s' =>
      if utf8_continuation c then String c (str_take n s')
      else match n with
           | O => EmptyString
           | S n' => String c (str_take n' s')
           end
  end.

(** ['=' * n] *)
Fixpoint str_repeat (c : string) (n : nat) : string :=
  match n with
  | O => ""
  | S n' => c +:+ str_repeat c n'
  end.

(** ** JSON values, as [response.json()] returns them *)

Inductive json : Type :=
| JNull
| JBool (b : bool)
| JInt (n : Z)
| JFloat (lit : string)        (* a float, carried by its literal: never inspected *)
| JStr (s : string)
| JArr (items : list json)
| JObj (items : list (string * json)).

(** [d[k]] / [k in d] on the items of a dict. *)
Fixpoint dict_lookup (k : string) (items : list (string * json)) : option json :=
  match items with
  | [] => None
  | (k', v) :: rest => if String.eqb k k' then Some v else dict_lookup k rest
  end.

Definition dict_has (k : string) (items : list (string * json)) : bool :=
  match dict_lookup k items with
  | Some _ => true
  | None => false
  end.

(** [v == needle] for a [str] needle: only an equal [str] is equal to it. *)
Definition is_str (needle : string) (v : json) : bool :=
  match v with
  | JStr s => String.eqb needle s
  | _ => false
  end.

Definition py_type_name (v : json) : string :=
  match v with
  | JNull => "NoneType"
  | JBool _ => "bool"
  | JInt _ => "int"
  | JFloat _ => "float"
  | JStr _ => "str"
  | JArr _ => "list"
  | JObj _ => "dict"
  end.

(** ** Exceptions *)

Inductive exn_class : Type :=
| Timeout                   (* requests.exceptions.Timeout and its subclasses *)
| RequestException          (* any other requests.exceptions.RequestException *)
| RequestsJSONDecodeError   (* requests.exceptions.JSONDecodeError: a
                               RequestException and a json.JSONDecodeError *)
| JSONDecodeError           (* json.JSONDecodeError alone (older requests) *)
| EnvironmentError
| TypeError
| KeyError
| AttributeError
| OtherException (name : string).

(** An exception instance: its class and [str(e)]. *)
Record exn : Type := Exn { exn_class_of : exn_class; exn_str : string }.

(** [isinstance(e, requests.exceptions.Timeout)] *)
Definition is_Timeout (e : exn) : bool :=
  match exn_class_of e with
  | Timeout => true
  | _ => false
  end.

(** [isinstance(e, requests.exceptions.RequestException)] *)
Definition is_RequestException (e : exn) : bool :=
  match exn_class_of e with
  | Timeout | RequestException | RequestsJSONDecodeError => true
  | _ => false
  end.

(** [isinstance(e, json.JSONDecodeError)] *)
Definition is_JSONDecodeError (e : exn) : bool :=
  match exn_class_of e with
  | RequestsJSONDecodeError | JSONDecodeError => true
  | _ => false
  end.

(** [isinstance(e, EnvironmentError)]: [EnvironmentError] is [OSError], which
    [RequestException] derives from. *)
Definition is_EnvironmentError (e : exn) : bool :=
  match exn_class_of e with
  | EnvironmentError => true
  | _ => is_RequestException e
  end.

(** [isinstance(e, Exception)]: every modelled exception. *)
Definition is_Exception (e : exn) : bool := true.

Inductive res (A : Type) : Type :=
| Val (a : A)
| Exc (e : exn).
Arguments Val {A} a.
Arguments Exc {A} e.

(** ** The operators the scenarios apply to parsed JSON *)

(** [needle in v] for a [str] needle. *)
Definition py_in (needle : string) (v : json) : res bool :=
  match v with
  | JStr s => Val (str_contains needle s)
  | JArr items => Val (existsb (is_str needle) items)
  | JObj items => Val (dict_has needle items)
  | _ => Exc (Exn TypeError
                ("argument of type '" +:+ py_type_name v +:+ "' is not iterable"))
  end.

(** [v[key]] for a [str] key. *)
Definition py_getitem (v : json) (key : string) : res json :=
  match v with
  | JObj items =>
      match dict_lookup key items with
      | Some x => Val x
      | None => Exc (Exn KeyError ("'" +:+ key +:+ "'"))
      end
  | JArr _ => Exc (Exn TypeError "list indices must be integers or slices, not str")
  | JStr _ => Exc (Exn TypeError "string indices must be integers, not 'str'")
  | _ => Exc (Exn TypeError ("'" +:+ py_type_name v +:+ "' object is not subscriptable"))
  end.

(** [v[:n]].  A dict refuses a slice as a key ([TypeError: unhashable type]
    before Python 3.12, [KeyError] from 3.12 on: the class is immaterial to
    the script, which catches neither). *)
Definition py_slice (v : json) (n : nat) : res json :=
  match v with
  | JStr s => Val (JStr (str_take n s))
  | JArr items => Val (JArr (firstn n items))
  | JObj _ => Exc (Exn TypeError "unhashable type: 'slice'")
  | _ => Exc (Exn TypeError ("'" +:+ py_type_name v +:+ "' object is not subscriptable"))
  end.

(** [v.get(key, default)] *)
Definition py_get (v : json) (key : string) (default : json) : res json :=
  match v with
  | JObj items =>
      match dict_lookup key items with
      | Some x => Val x
      | None => Val default
      end
  | _ => Exc (Exn AttributeError
                ("'" +:+ py_type_name v +:+ "' object has no attribute 'get'"))
  end.

(** ** Requests and responses *)

Inductive http_method : Type := POST | OPTIONS.

(** [json=payload], [data="..."], or neither. *)
Inductive req_body : Type :=
| NoBody
| JsonBody (payload : json)
| DataBody (data : string).

(** A request as it leaves: [req_headers] are the headers [requests] has
    prepared from the [headers=] argument (without those of its own session:
    User-Agent, Accept and the like). *)
Record request : Type := Request {
  req_method : http_method;
  req_url : string;
  req_headers : gmap string string;
  req_payload : req_body;
  req_timeout : Z
}.

(** ASCII lower case, for the case-insensitive names of headers. *)
Definition ascii_lower (c : ascii) : ascii :=
  let n := N_of_ascii c in
  if (65 <=? n)%N && (n <=? 90)%N then ascii_of_N (n + 32) else c.

Fixpoint str_lower (s : string) : string :=
  match s with
  | EmptyString => EmptyString
  | String c s' => String (ascii_lower c) (str_lower s')
  end.

(** [name in headers], for the case-insensitive headers of a prepared request
    and a [name] in lower case. *)
Definition has_header (name : string) (h : gmap string string) : bool :=
  existsb (fun kv => String.eqb (str_lower (fst kv)) name) (map_to_list h).

(** What [requests] makes of the [headers=] argument of [requests.post] and
    [requests.options]:
    - an entry whose value is [None] is left out ([merge_setting]: the
      documented way to omit a header);
    - when the body is given with [json=] and is not [None], and no
      Content-Type header is among the remaining ones, whatever the case of
      its name, [Content-Type: application/json] is added ([prepare_body]);
      a body given with [data=] as a [str] adds nothing.
    Names that differ in case only are kept apart here. *)
Definition prepare_headers (headers : gmap string (option string)) (body : req_body)
  : gmap string string :=
  let given : gmap string string := omap id headers in
  match body with
  | JsonBody JNull => given
  | JsonBody _ =>
      if has_header "content-type" given then given
      else <[ "Content-Type" := "application/json" ]> given
  | _ => given
  end.

(** What the script reads of a [requests.Response]: [json_result] is what
    [response.json()] returns or raises. *)
Record response : Type := Response {
  status_code : Z;
  text : string;
  resp_headers : list (string * string);
  json_result : res json
}.

Definition network : Type := list request -> request -> res response.

(** [response.headers.get(name, default)] *)
Fixpoint headers_get (name : string) (hs : list (string * string)) (default : string)
  : string :=
  match hs with
  | [] => default
  | (k, v) :: rest =>
      if String.eqb (str_lower k) (str_lower name) then v
      else headers_get name rest default
  end.

(** ** Output *)

Inductive frag : Type :=
| Lit (s : string)                              (* literal text, or a [str] *)
| FInt (n : Z)                                  (* [{n}] for an int *)
| FVal (v : json)                               (* [{v}]: [str(v)] *)
| FDump (v : json)                              (* [json.dumps(v, indent=2)] *)
| FDumpHeaders (h : gmap string (option string)) (* [json.dumps(headers, indent=2)] *)
| FDictHeaders (h : list (string * string))     (* [dict(response.headers)] *)
| FUpper (s : string).                          (* [s.upper()] *)

Definition ftext : Type := list frag.

(** Truth value of a formatted string: it is not empty. *)
Definition frag_nonempty (f : frag) : bool :=
  match f with
  | Lit s => negb (String.eqb s "")
  | FVal (JStr s) => negb (String.eqb s "")
  | FUpper s => negb (String.eqb s "")
  | _ => true
  end.

Definition ftext_truthy (t : ftext) : bool := existsb frag_nonempty t.

(** ** The monad: requests sent and lines printed so far, and exceptions *)

Record state : Type := State {
  sent : list request;
  out : list ftext
}.

Definition M (A : Type) : Type := state -> res A * state.

Definition ret {A} (a : A) : M A := fun s => (Val a, s).

Definition raise {A} (e : exn) : M A := fun s => (Exc e, s).

Definition bind {A B} (m : M A) (k : A -> M B) : M B :=
  fun s =>
    match m s with
    | (Val a, s') => k a s'
    | (Exc e, s') => (Exc e, s')
    end.

Notation "x <- m ;; k" := (bind m (fun x => k))
  (at level 100, m at next level, right associativity).
Notation "m ;; k" := (bind m (fun _ => k))
  (at level 100, right associativity).

Definition lift {A} (r : res A) : M A := fun s => (r, s).

Definition print (line : ftext) : M unit :=
  fun s => (Val tt, State (sent s) (out s ++ [line])).

Definition when (b : bool) (m : M unit) : M unit :=
  if b then m else ret tt.

(** One [except] clause: the class test and the handler. *)
Definition clause (A : Type) : Type := (exn -> bool) * (exn -> M A).

Fixpoint dispatch {A} (clauses : list (clause A)) (e : exn) : M A :=
  match clauses with
  | [] => raise e
  | (matches, handler) :: rest =>
      if matches e then handler e else dispatch rest e
  end.

(** [try: body  except C1: ...  except C2: ...] *)
Definition try_except {A} (body : M A) (clauses : list (clause A)) : M A :=
  fun s =>
    match body s with
    | (Val a, s') => (Val a, s')
    | (Exc e, s') => dispatch clauses e s'
    end.

(** [a and b], evaluating [b] only when [a] holds. *)
Definition py_and (a b : M bool) : M bool :=
  x <- a ;; if x then b else ret false.

(** Truth value of [os.environ.get(name)]: set and not empty. *)
Definition env_truthy (v : option string) : bool :=
  match v with
  | Some s => negb (String.eqb s "")
  | None => false
  end.

(** Truth value of [headers_override]: not [None] and not the empty dict. *)
Definition dict_truthy (d : option (gmap string (option string))) : bool :=
  match d with
  | Some o => negb (bool_decide (o = ∅))
  | None => false
  end.

(** ** The script *)

Definition get_api_key (environ : gmap string string) : M string :=
  let api_key := environ !! "API_KEY" in
  if negb (env_truthy api_key) then
    raise (Exn EnvironmentError
             ("API_KEY environment variable is not set." +:+ nl +:+
              "Set it with: export API_KEY=your_api_key"))
  else ret (default "" api_key).

Definition get_api_url (environ : gmap string string) (env : string) : M string :=
  if String.eqb env "prod" then
    let url := environ !! "PROD_API_URL" in
    if negb (env_truthy url) then
      raise (Exn EnvironmentError
               ("PROD_API_URL environment variable is not set." +:+ nl +:+
                "Set it with: export PROD_API_URL=your_prod_url"))
    else ret (default "" url)
  else
    let url := environ !! "TEST_API_URL" in
    if negb (env_truthy url) then
      raise (Exn EnvironmentError
               ("TEST_API_URL environment variable is not set." +:+ nl +:+
                "Set it with: export TEST_API_URL=your_test_url"))
    else ret (default "" url).

(** The headers [make_request] hands to [requests.post]. *)
Definition make_request_headers (api_key : string)
    (headers_override : option (gmap string (option string)))
  : gmap string (option string) :=
  let headers : gmap string (option string) :=
    {[ "Content-Type" := Some "application/json"; "X-Api-Key" := Some api_key ]} in
  if dict_truthy headers_override
  then default ∅ headers_override ∪ headers      (* headers.update(headers_override) *)
  else headers.

Definition print_result (test_name : string) (passed : bool) (details : ftext) : M unit :=
  let status := if passed then "✅ PASS" else "❌ FAIL" in
  print [Lit status; Lit " - "; Lit test_name] ;;
  when (ftext_truthy details) (print (Lit "       " :: details)).

Section Harness.

Variable net : network.

(** The one place a request leaves the process: the library answers with a
    response or raises, and the request is on record either way. *)
Definition send (r : request) : M response :=
  fun s => (net (sent s) r, State (sent s ++ [r]) (out s)).

Definition requests_post (url : string) (headers : gmap string (option string))
    (body : req_body) (timeout : Z) : M response :=
  send (Request POST url (prepare_headers headers body) body timeout).

Definition requests_options (url : string) (headers : gmap string (option string))
    (timeout : Z) : M response :=
  send (Request OPTIONS url (prepare_headers headers NoBody) NoBody timeout).

Definition make_request (url api_key : string) (payload : json)
    (headers_override : option (gmap string (option string))) (verbose : bool)
  : M response :=
  let headers := make_request_headers api_key headers_override in
  when verbose
    (print [Lit "  URL: "; Lit url] ;;
     print [Lit "  Headers: "; FDumpHeaders headers] ;;
     print [Lit "  Payload: "; FDump payload]) ;;
  response <- requests_post url headers (JsonBody payload) 30 ;;
  ret response.

Definition test_success_request (url api_key : string) (verbose : bool) : M bool :=
  print [Lit (nl +:+ "--- Test: Valid Request (Success) ---")] ;;
  let payload :=
    JObj [("threadId", JStr "test-thread-001");
          ("messages", JArr [JObj [("role", JStr "user");
                                   ("content", JStr "Say 'Hello test' and nothing else.")]])] in
  try_except
    (response <- make_request url api_key payload None verbose ;;
     when verbose
       (print [Lit "  Status Code: "; FInt (status_code response)] ;;
        print [Lit "  Response: "; Lit (str_take 500 (text response)); Lit "..."]) ;;
     if status_code response =? 200 then
       data <- lift (json_result response) ;;
       found <- py_and (lift (py_in "assistant" data))
                       (a <- lift (py_getitem data "assistant") ;;
                        lift (py_in "content" a)) ;;
       if found then
         a <- lift (py_getitem data "assistant") ;;
         c <- lift (py_getitem a "content") ;;
         excerpt <- lift (py_slice c 50) ;;
         print_result "Valid Request" true [Lit "Got response: "; FVal excerpt; Lit "..."] ;;
         ret true
       else
         print_result "Valid Request" false [Lit "Missing 'assistant.content' in response"] ;;
         ret false
     else
       print_result "Valid Request" false
         [Lit "Expected 200, got "; FInt (status_code response)] ;;
       ret false)
    [ (is_Timeout, fun _ =>
         print_result "Valid Request" false [Lit "Request timed out"] ;;
         ret false);
      (is_RequestException, fun e =>
         print_result "Valid Request" false [Lit "Request failed: "; Lit (exn_str e)] ;;
         ret false);
      (is_JSONDecodeError, fun e =>
         print_result "Valid Request" false [Lit "Invalid JSON response: "; Lit (exn_str e)] ;;
         ret false) ].

Definition test_missing_body (url api_key : string) (verbose : bool) : M bool :=
  print [Lit (nl +:+ "--- Test: Missing Request Body ---")] ;;
  let headers : gmap string (option string) :=
    {[ "Content-Type" := Some "application/json"; "X-Api-Key" := Some api_key ]} in
  try_except
    (response <- requests_post url headers (DataBody "") 30 ;;
     when verbose
       (print [Lit "  Status Code: "; FInt (status_code response)] ;;
        print [Lit "  Response: "; Lit (text response)]) ;;
     if status_code response =? 400 then
       data <- lift (json_result response) ;;
       found <- lift (py_in "error" data) ;;
       if found then
         err <- lift (py_getitem data "error") ;;
         print_result "Missing Body" true [Lit "Got expected error: "; FVal err] ;;
         ret true
       else
         print_result "Missing Body" false [Lit "Expected error message in response"] ;;
         ret false
     else
       print_result "Missing Body" false
         [Lit "Expected 400, got "; FInt (status_code response)] ;;
       ret false)
    [ (is_RequestException, fun e =>
         print_result "Missing Body" false [Lit "Request failed: "; Lit (exn_str e)] ;;
         ret false) ].

Definition test_invalid_json (url api_key : string) (verbose : bool) : M bool :=
  print [Lit (nl +:+ "--- Test: Invalid JSON Payload ---")] ;;
  let headers : gmap string (option string) :=
    {[ "Content-Type" := Some "application/json"; "X-Api-Key" := Some api_key ]} in
  try_except
    (response <- requests_post url headers (DataBody "{invalid json") 30 ;;
     when verbose
       (print [Lit "  Status Code: "; FInt (status_code response)] ;;
        print [Lit "  Response: "; Lit (text response)]) ;;
     if status_code response =? 400 then
       data <- lift (json_result response) ;;
       found <- py_and (lift (py_in "error" data))
                       (err <- lift (py_getitem data "error") ;;
                        lift (py_in "Invalid JSON" err)) ;;
       if found then
         err <- lift (py_getitem data "error") ;;
         print_result "Invalid JSON" true [Lit "Got expected error: "; FVal err] ;;
         ret true
       else
         err <- lift (py_get data "error" (JStr "unknown")) ;;
         print_result "Invalid JSON" true [Lit "Got 400 with error: "; FVal err] ;;
         ret true
     else
       print_result "Invalid JSON" false
         [Lit "Expected 400, got "; FInt (status_code response)] ;;
       ret false)
    [ (is_RequestException, fun e =>
         print_result "Invalid JSON" false [Lit "Request failed: "; Lit (exn_str e)] ;;
         ret false) ].

(** The three scenarios that post a structurally wrong payload through
    [make_request] and look for a word in the error share one body; each is
    spelled out below with its own payload, test name and word. *)
Definition expect_400_error (test_name word : string) (payload : json)
    (url api_key : string) (verbose : bool) : M bool :=
  try_except
    (response <- make_request url api_key payload None verbose ;;
     when verbose
       (print [Lit "  Status Code: "; FInt (status_code response)] ;;
        print [Lit "  Response: "; Lit (text response)]) ;;
     if status_code response =? 400 then
       data <- lift (json_result response) ;;
       found <- py_and (lift (py_in "error" data))
                       (err <- lift (py_getitem data "error") ;;
                        lift (py_in word err)) ;;
       if found then
         err <- lift (py_getitem data "error") ;;
         print_result test_name true [Lit "Got expected error: "; FVal err] ;;
         ret true
       else
         err <- lift (py_get data "error" (JStr "unknown")) ;;
         print_result test_name false [Lit "Unexpected error: "; FVal err] ;;
         ret false
     else
       print_result test_name false
         [Lit "Expected 400, got "; FInt (status_code response)] ;;
       ret false)
    [ (is_RequestException, fun e =>
         print_result test_name false [Lit "Request failed: "; Lit (exn_str e)] ;;
         ret false) ].

Definition test_missing_thread_id (url api_key : string) (verbose : bool) : M bool :=
  print [Lit (nl +:+ "--- Test: Missing threadId ---")] ;;
  let payload :=
    JObj [("messages", JArr [JObj [("role", JStr "user"); ("content", JStr "Hello")]])] in
  expect_400_error "Missing threadId" "threadId" payload url api_key verbose.

Definition test_messages_not_array (url api_key : string) (verbose : bool) : M bool :=
  print [Lit (nl +:+ "--- Test: Messages Not Array ---")] ;;
  let payload :=
    JObj [("threadId", JStr "test-thread"); ("messages", JStr "not an array")] in
  expect_400_error "Messages Not Array" "array" payload url api_key verbose.

Definition test_empty_messages (url api_key : string) (verbose : bool) : M bool :=
  print [Lit (nl +:+ "--- Test: Empty Messages Array ---")] ;;
  let payload :=
    JObj [("threadId", JStr "test-thread"); ("messages", JArr [])] in
  expect_400_error "Empty Messages" "empty" payload url api_key verbose.

Definition test_missing_api_key (url api_key : string) (verbose : bool) : M bool :=
  print [Lit (nl +:+ "--- Test: Missing API Key ---")] ;;
  let payload :=
    JObj [("threadId", JStr "test-thread");
          ("messages", JArr [JObj [("role", JStr "user"); ("content", JStr "Hello")]])] in
  let headers : gmap string (option string) :=
    {[ "Content-Type" := Some "application/json" ]} in    (* no X-Api-Key, on purpose *)
  try_except
    (response <- requests_post url headers (JsonBody payload) 30 ;;
     when verbose
       (print [Lit "  Status Code: "; FInt (status_code response)] ;;
        print [Lit "  Response: "; Lit (text response)]) ;;
     if status_code response =? 403 then
       print_result "Missing API Key" true [Lit "Got expected 403 Forbidden"] ;;
       ret true
     else
       print_result "Missing API Key" false
         [Lit "Expected 403, got "; FInt (status_code response)] ;;
       ret false)
    [ (is_RequestException, fun e =>
         print_result "Missing API Key" false [Lit "Request failed: "; Lit (exn_str e)] ;;
         ret false) ].

Definition test_invalid_api_key (url api_key : string) (verbose : bool) : M bool :=
  print [Lit (nl +:+ "--- Test: Invalid API Key ---")] ;;
  let payload :=
    JObj [("threadId", JStr "test-thread");
          ("messages", JArr [JObj [("role", JStr "user"); ("content", JStr "Hello")]])] in
  try_except
    (response <- make_request url "invalid-api-key-12345" payload None verbose ;;
     when verbose
       (print [Lit "  Status Code: "; FInt (status_code response)] ;;
        print [Lit "  Response: "; Lit (text response)]) ;;
     if status_code response =? 403 then
       print_result "Invalid API Key" true [Lit "Got expected 403 Forbidden"] ;;
       ret true
     else
       print_result "Invalid API Key" false
         [Lit "Expected 403, got "; FInt (status_code response)] ;;
       ret false)
    [ (is_RequestException, fun e =>
         print_result "Invalid API Key" false [Lit "Request failed: "; Lit (exn_str e)] ;;
         ret false) ].

Definition test_cors_preflight (url api_key : string) (verbose : bool) : M bool :=
  print [Lit (nl +:+ "--- Test: CORS Preflight (OPTIONS) ---")] ;;
  let headers : gmap string (option string) :=
    {[ "Access-Control-Request-Method" := Some "POST";
       "Origin" := Some "http://localhost:5173" ]} in
  try_except
    (response <- requests_options url headers 30 ;;
     when verbose
       (print [Lit "  Status Code: "; FInt (status_code response)] ;;
        print [Lit "  Headers: "; FDictHeaders (resp_headers response)]) ;;
     if status_code response =? 200 then
       let cors_origin := headers_get "Access-Control-Allow-Origin" (resp_headers response) "" in
       let cors_methods := headers_get "Access-Control-Allow-Methods" (resp_headers response) "" in
       if negb (String.eqb cors_origin "") && negb (String.eqb cors_methods "") then
         print_result "CORS Preflight" true
           [Lit "Origin: "; Lit cors_origin; Lit ", Methods: "; Lit cors_methods] ;;
         ret true
       else
         print_result "CORS Preflight" false [Lit "Missing CORS headers in response"] ;;
         ret false
     else
       print_result "CORS Preflight" false
         [Lit "Expected 200, got "; FInt (status_code response)] ;;
       ret false)
    [ (is_RequestException, fun e =>
         print_result "CORS Preflight" false [Lit "Request failed: "; Lit (exn_str e)] ;;
         ret false) ].

(** A scenario function: [test_func(url, api_key, verbose)]. *)
Definition test_func : Type := string -> string -> bool -> M bool.

(** [results] of [run_all_tests]: the dict with keys passed, failed, details. *)
Record results : Type := Results {
  passed : nat;
  failed : nat;
  details : list (string * bool)
}.

(** The list [tests] of [run_all_tests]. *)
Definition tests : list (string * test_func) :=
  [ ("Success Request", test_success_request);
    ("Missing Body", test_missing_body);
    ("Invalid JSON", test_invalid_json);
    ("Missing threadId", test_missing_thread_id);
    ("Messages Not Array", test_messages_not_array);
    ("Empty Messages", test_empty_messages);
    ("Missing API Key", test_missing_api_key);
    ("Invalid API Key", test_invalid_api_key);
    ("CORS Preflight", test_cors_preflight) ].

(** The body of the [for] loop of [run_all_tests], for one entry. *)
Definition run_one (url api_key : string) (verbose : bool)
    (name : string) (f : test_func) (r : results) : M results :=
  try_except
    (ok <- f url api_key verbose ;;
     let r := if ok then Results (S (passed r)) (failed r) (details r)
              else Results (passed r) (S (failed r)) (details r) in
     ret (Results (passed r) (failed r) (details r ++ [(name, ok)])))
    [ (is_Exception, fun e =>
         print_result name false [Lit "Unexpected error: "; Lit (exn_str e)] ;;
         ret (Results (passed r) (S (failed r)) (details r ++ [(name, false)]))) ].

(** The [for] loop over a list of entries. *)
Fixpoint run_tests (url api_key : string) (verbose : bool)
    (entries : list (string * test_func)) (r : results) : M results :=
  match entries with
  | [] => ret r
  | (name, f) :: rest =>
      r' <- run_one url api_key verbose name f r ;;
      run_tests url api_key verbose rest r'
  end.

Definition run_all_tests (url api_key : string) (verbose : bool) : M results :=
  run_tests url api_key verbose tests (Results 0 0 []).

(** What [parse_args] returns. *)
Record args : Type := Args {
  args_env : string;
  args_verbose : bool;
  args_test : string
}.

(** The dict [test_map] of [main]. *)
Definition test_map : gmap string test_func :=
  {[ "success" := test_success_request;
     "missing-body" := test_missing_body;
     "invalid-json" := test_invalid_json;
     "missing-threadid" := test_missing_thread_id;
     "messages-not-array" := test_messages_not_array;
     "empty-messages" := test_empty_messages;
     "missing-key" := test_missing_api_key;
     "invalid-key" := test_invalid_api_key;
     "cors" := test_cors_preflight ]}.

Fixpoint print_failed (ds : list (string * bool)) : M unit :=
  match ds with
  | [] => ret tt
  | (name, ok) :: rest =>
      when (negb ok) (print [Lit "  - "; Lit name]) ;;
      print_failed rest
  end.

(** [main]: the value returned is the argument of the [sys.exit] call that
    ends it; an exception that leaves [main] is a raised one. *)
Definition main (environ : gmap string string) (a : args) : M Z :=
  conf <- try_except
            (api_key <- get_api_key environ ;;
             url <- get_api_url environ (args_env a) ;;
             ret (Some (api_key, url)))
            [ (is_EnvironmentError, fun e =>
                 print [Lit "❌ Error: "; Lit (exn_str e)] ;;
                 ret None) ] ;;
  match conf with
  | None => ret 1                                         (* sys.exit(1) *)
  | Some (api_key, url) =>
      print [Lit (nl +:+ str_repeat "=" 60)] ;;
      print [Lit "API Test Suite - Environment: "; FUpper (args_env a)] ;;
      print [Lit "URL: "; Lit url] ;;
      print [Lit (str_repeat "=" 60)] ;;
      if String.eqb (args_test a) "all" then
        r <- run_all_tests url api_key (args_verbose a) ;;
        print [Lit (nl +:+ str_repeat "=" 60)] ;;
        print [Lit "SUMMARY"] ;;
        print [Lit (str_repeat "=" 60)] ;;
        print [Lit "Passed: "; FInt (Z.of_nat (passed r))] ;;
        print [Lit "Failed: "; FInt (Z.of_nat (failed r))] ;;
        print [Lit "Total:  "; FInt (Z.of_nat (passed r + failed r))] ;;
        if (0 <? failed r)%nat then
          print [Lit (nl +:+ "Failed tests:")] ;;
          print_failed (details r) ;;
          ret 1                                           (* sys.exit(1) *)
        else
          print [Lit (nl +:+ "✅ All tests passed!")] ;;
          ret 0                                           (* sys.exit(0) *)
      else
        match test_map !! args_test a with
        | None => raise (Exn KeyError ("'" +:+ args_test a +:+ "'"))
        | Some test_func =>
            ok <- (test_func url api_key (args_verbose a) : M bool) ;;
            ret (if ok : bool then 0 else 1)                     (* sys.exit(0 if passed else 1) *)
        end
  end.

End Harness.


Definition initial : state := State [] [].

(** * Properties *)

(** ** Vocabulary of the statements *)

(** The computation [m], started in [s], returns [a] / raises [e]. *)
Definition returns {A} (m : M A) (s : state) (a : A) : Prop := fst (m s) = Val a.

Definition raises {A} (m : M A) (s : state) (e : exn) : Prop := fst (m s) = Exc e.

(** The lines one call of [print_result] writes: the verdict shown to the
    operator, with its detail. *)
Definition verdict_lines (test_name : string) (ok : bool) (detail : ftext) : list ftext :=
  [Lit (if ok then "✅ PASS" else "❌ FAIL"); Lit " - "; Lit test_name]
  :: (if ftext_truthy detail then [Lit "       " :: detail] else []).

(** The parsed body is a JSON object. *)
Definition is_object (d : json) : bool :=
  match d with
  | JObj _ => true
  | _ => false
  end.

(** The parsed body is a JSON object whose ["error"], when it has one, is a
    string: the bodies on which "the string value of the error key" is
    defined. *)
Definition error_is_text (d : json) : bool :=
  match d with
  | JObj items =>
      match dict_lookup "error" items with
      | Some (JStr _) | None => true
      | Some _ => false
      end
  | _ => false
  end.

(** Networks used as concrete inputs: one that answers every request with the
    same response, one that fails every request with the same exception. *)
Definition answering (resp : response) : network := fun _ _ => Val resp.

Definition failing (e : exn) : network := fun _ _ => Exc e.

Definition json_response (status : Z) (body : json) : response :=
  Response status "" [] (Val body).

(** The names under which the nine scenarios report their verdict, in the
    order of the registry. *)
Definition scenarios (net : network) : list (test_func * string) :=
  [ (test_success_request net, "Valid Request");
    (test_missing_body net, "Missing Body");
    (test_invalid_json net, "Invalid JSON");
    (test_missing_thread_id net, "Missing threadId");
    (test_messages_not_array net, "Messages Not Array");
    (test_empty_messages net, "Empty Messages");
    (test_missing_api_key net, "Missing API Key");
    (test_invalid_api_key net, "Invalid API Key");
    (test_cors_preflight net, "CORS Preflight") ].


(** Concrete responses of the API under test, used as inputs below. *)
Definition thread_id_required : response :=
  json_response 400 (JObj [("error", JStr "threadId is required")]).

Definition empty_error : response :=
  json_response 400 (JObj [("error", JStr "")]).

Definition no_error_key : response :=
  json_response 400 (JObj []).

Definition parse_error : response :=
  json_response 400 (JObj [("error", JStr "Unexpected token i in JSON at position 1")]).

Definition forbidden : response :=
  Response 403 "Forbidden" [] (Exc (Exn RequestsJSONDecodeError "Expecting value")).

Definition numeric_content : response :=
  json_response 200 (JObj [("assistant", JObj [("content", JInt 5)])]).

Definition hello_test : response :=
  json_response 200 (JObj [("assistant", JObj [("content", JStr "Hello test")])]).





(** The number of verdicts equal to [ok] among the recorded ones. *)
Definition count_verdicts (ok : bool) (ds : list (string * bool)) : nat :=
  length (List.filter (fun d => Bool.eqb (snd d) ok) ds).

(** [results] after one more verdict has been recorded. *)
Definition record (name : string) (ok : bool) (r : results) : results :=
  Results (if ok then S (passed r) else passed r)
          (if ok then failed r else S (failed r))
          (details r ++ [(name, ok)]).

(** The environment variable the base URL is read from. *)
Definition url_variable (env : string) : string :=
  if String.eqb env "prod" then "PROD_API_URL" else "TEST_API_URL".

(** The lines [main] prints before it runs anything. *)
Definition banner (a : args) (url : string) : list ftext :=
  [ [Lit (nl +:+ str_repeat "=" 60)];
    [Lit "API Test Suite - Environment: "; FUpper (args_env a)];
    [Lit "URL: "; Lit url];
    [Lit (str_repeat "=" 60)] ].

(** A 200 answer whose body is the JSON number 5: the success scenario
    raises [TypeError] on it. *)
Definition bare_number : response := json_response 200 (JInt 5).

(** An environment with the credential and the test URL. *)
Definition test_environ : gmap string string :=
  {[ "API_KEY" := "secret"; "TEST_API_URL" := "https://test.example" ]}.

(** The status each scenario expects, and the words it prints before the
    status it got instead. *)
Definition expected_status (label : string) : Z :=
  if String.eqb label "Valid Request" || String.eqb label "CORS Preflight" then 200
  else if String.eqb label "Missing API Key" || String.eqb label "Invalid API Key" then 403
  else 400.

Definition expected_words (label : string) : string :=
  if expected_status label =? 200 then "Expected 200, got "
  else if expected_status label =? 403 then "Expected 403, got "
  else "Expected 400, got ".

(** The five scenarios that expect a 400 and read its body. *)
Definition validation_scenarios (net : network) : list (test_func * string) :=
  [ (test_missing_body net, "Missing Body");
    (test_invalid_json net, "Invalid JSON");
    (test_missing_thread_id net, "Missing threadId");
    (test_messages_not_array net, "Messages Not Array");
    (test_empty_messages net, "Empty Messages") ].

(** A preflight answer with both CORS headers, in lower case as HTTP/2
    servers send them, and one that lacks the allow-methods header. *)
Definition cors_allowed : response :=
  Response 200 "" [ ("access-control-allow-origin", "*");
                    ("access-control-allow-methods", "POST, OPTIONS") ]
           (Exc (Exn RequestsJSONDecodeError "Expecting value")).

Definition cors_no_methods : response :=
  Response 200 "" [ ("Access-Control-Allow-Origin", "*") ]
           (Exc (Exn RequestsJSONDecodeError "Expecting value")).

(** An answer with a status no scenario expects, one whose body is not JSON
    as recent and as older versions of requests report it, and failures of
    the transport and of the interpreter. *)
Definition server_error : response :=
  Response 500 "Internal Server Error" [] (Exc (Exn RequestsJSONDecodeError "Expecting value")).

Definition html_400 : response :=
  Response 400 "<html>Bad Request</html>" []
           (Exc (Exn RequestsJSONDecodeError "Expecting value: line 1 column 1 (char 0)")).

Definition html_400_old : response :=
  Response 400 "<html>Bad Request</html>" []
           (Exc (Exn JSONDecodeError "Expecting value: line 1 column 1 (char 0)")).

Definition html_200_old : response :=
  Response 200 "<html>OK</html>" []
           (Exc (Exn JSONDecodeError "Expecting value: line 1 column 1 (char 0)")).

Definition refused : exn := Exn RequestException "Connection refused".

Definition out_of_memory : exn := Exn (OtherException "MemoryError") "".

(** A server whose answer to a request does not depend on the requests it
    received before. *)
Definition history_free (net : network) : Prop :=
  forall h h' r, net h r = net h' r.

(** The verdict of a scenario run on its own: what it returns, or a fail
    when it raises. *)
Definition verdict_alone (url key : string) (entry : string * test_func)
  : string * bool :=
  (fst entry,
   match fst (snd entry url key false initial) with
   | Val ok => ok
   | Exc _ => false
   end).

(** The names [main] lists under "Failed tests:". *)
Definition failed_names (ds : list (string * bool)) : list string :=
  map fst (List.filter (fun d => negb (snd d)) ds).

(** The end-of-run summary [main] prints after a full run. *)
Definition summary (r : results) : list ftext :=
  [ [Lit (nl +:+ str_repeat "=" 60)];
    [Lit "SUMMARY"];
    [Lit (str_repeat "=" 60)];
    [Lit "Passed: "; FInt (Z.of_nat (passed r))];
    [Lit "Failed: "; FInt (Z.of_nat (failed r))];
    [Lit "Total:  "; FInt (Z.of_nat (passed r + failed r))] ]
  ++ (if (0 <? failed r)%nat
      then [Lit (nl +:+ "Failed tests:")]
           :: map (fun name => [Lit "  - "; Lit name]) (failed_names (details r))
      else [[Lit (nl +:+ "✅ All tests passed!")]]).

(** The values [parse_args] accepts for [--test] ([choices], in order). *)
Definition test_choices : list string :=
  [ "all"; "success"; "missing-body"; "invalid-json"; "missing-threadid";
    "messages-not-array"; "empty-messages"; "missing-key"; "invalid-key"; "cors" ].

(** An environment with the credential and no URL at all. *)
Definition key_only_environ : gmap string string := {[ "API_KEY" := "secret" ]}.




(** A printed line is the first line of a verdict. *)
Definition is_verdict_line (line : ftext) : bool :=
  match line with
  | Lit status :: _ => String.eqb status "✅ PASS" || String.eqb status "❌ FAIL"
  | _ => false
  end.

(** ** Running the monad by hand *)

(** Evaluate the script's control flow, leaving the formatting of verdicts
    ([print_result]) and the data operators folded. *)
Ltac ev :=
  lazy beta iota zeta delta
    [test_success_request test_missing_body test_invalid_json
     test_missing_thread_id test_messages_not_array test_empty_messages
     test_missing_api_key test_invalid_api_key test_cors_preflight
     expect_400_error make_request requests_post requests_options py_and
     send when try_except print lift ret raise bind dispatch returns raises];
  cbn [fst snd sent out].

(** Case split on the value that blocks the evaluation. *)
Ltac split_goal :=
  match goal with
  | |- context [match ?x with _ => _ end] =>
      lazymatch x with
      | context [match _ with _ => _ end] => fail
      | _ => destruct x eqn:?
      end
  end.

Lemma str_contains_unfold (sub s : string) :
  str_contains sub s
  = String.prefix sub s ||
    match s with
    | EmptyString => false
    | String _ s' => str_contains sub s'
    end.
Proof. by destruct s. Qed.

Lemma append_cons (c : ascii) (p b : string) : String c p +:+ b = String c (p +:+ b).
Proof. reflexivity. Qed.

Lemma prefix_of_app (p b : string) : String.prefix p (p +:+ b) = true.
Proof.
  induction p as [|c p IH]; [by destruct b|].
  rewrite append_cons. cbn. by destruct (ascii_dec c c).
Qed.

Lemma str_contains_app (sub a b : string) : str_contains sub (a +:+ sub +:+ b) = true.
Proof.
  induction a as [|c a IH].
  - rewrite str_contains_unfold. change ("" +:+ sub +:+ b) with (sub +:+ b).
    by rewrite prefix_of_app.
  - rewrite append_cons. cbn. rewrite IH. apply orb_true_r.
Qed.

Lemma prefix_app (p s : string) : String.prefix p s = true -> exists b, s = p +:+ b.
Proof.
  revert s. induction p as [|c p IH]; intros s H.
  - by exists s.
  - destruct s as [|c' s]; [done|]. cbn in H.
    destruct (ascii_dec c c') as [->|]; [|done].
    destruct (IH _ H) as [b ->]. by exists b.
Qed.

(** [str_contains] is Python's substring test. *)
Lemma str_contains_spec (sub s : string) :
  str_contains sub s = true <-> exists a b, s = a +:+ sub +:+ b.
Proof.
  split.
  - induction s as [|c s IH]; rewrite str_contains_unfold;
      intros H; apply orb_true_iff in H as [H|H].
    + destruct (prefix_app _ _ H) as [b ->]. by exists "", b.
    + done.
    + destruct (prefix_app _ _ H) as [b Hb]. exists "", b. by rewrite Hb.
    + destruct (IH H) as (a & b & ->). by exists (String c a), b.
  - intros (a & b & ->). apply str_contains_app.
Qed.

Lemma print_result_run (name : string) (ok : bool) (detail : ftext) (s : state) :
  print_result name ok detail s
  = (Val tt, State (sent s) (out s ++ verdict_lines name ok detail)).
Proof.
  unfold print_result, verdict_lines; ev.
  destruct ok, (ftext_truthy detail); cbn; by rewrite <- ?app_assoc.
Qed.

Ltac ev_step := first [rewrite print_result_run | split_goal]; ev.
Ltac ev_cases := ev; repeat ev_step.

(** Take the nine scenarios one by one. *)
Ltac each_scenario H :=
  unfold scenarios in H;
  repeat (apply elem_of_cons in H as [H|H]; [injection H as -> ->|]);
  [..|by apply elem_of_nil in H].

Lemma is_Timeout_RequestException (e : exn) :
  is_Timeout e = true -> is_RequestException e = true.
Proof. unfold is_Timeout, is_RequestException. by destruct (exn_class_of e). Qed.

Lemma app_middle {A} (a l c : list A) :
  c `suffix_of` l -> exists pre, a ++ l = a ++ pre ++ c.
Proof. intros [k ->]. by exists k. Qed.

Ltac ends_with :=
  rewrite <- ?app_assoc; apply app_middle;
  repeat first [reflexivity | apply suffix_app_r].

(** Each scenario puts exactly one request on the wire, to the base URL and
    with the 30 second timeout, and only adds lines to the output, whatever
    the network does. *)
Lemma scenario_frame net url key verbose s f label :
  (f, label) ∈ scenarios net ->
  exists req lines,
    snd (f url key verbose s) = State (sent s ++ [req]) (out s ++ lines)
    /\ req_url req = url /\ req_timeout req = 30.
Proof.
  intros Hin. each_scenario Hin.
  all: destruct verbose; ev_cases.
  all: rewrite <- ?app_assoc; eexists _, _; split_and!; reflexivity.
Qed.



(** ** The verdict of each scenario on a given response *)

Ltac data H :=
  unfold py_in, py_getitem, py_get, py_slice, dict_has; rewrite ?H; ev.

Section OnResponse.

Variables (net : network) (url key : string) (verbose : bool) (s : state).
Variable resp : response.
Hypothesis Hnet : forall r, net (sent s) r = Val resp.

Lemma auth_scenario_result (f : test_func) :
  f = test_missing_api_key net \/ f = test_invalid_api_key net ->
  fst (f url key verbose s) = Val (status_code resp =? 403).
Proof using Hnet.
  intros [-> | ->]; destruct verbose; ev; rewrite Hnet; ev;
    destruct (status_code resp =? 403); ev; rewrite print_result_run; by ev.
Qed.

Lemma expect_400_error_on_text name word payload items msg :
  json_result resp = Val (JObj items) ->
  dict_lookup "error" items = Some (JStr msg) ->
  fst (expect_400_error net name word payload url key verbose s)
  = Val ((status_code resp =? 400) && str_contains word msg).
Proof using Hnet.
  intros Hj Hl. destruct verbose; ev; rewrite Hnet; ev;
    destruct (status_code resp =? 400); ev; rewrite ?Hj; ev; data Hl;
    try destruct (str_contains word msg); ev; data Hl; rewrite print_result_run; by ev.
Qed.

Lemma expect_400_error_no_error name word payload items :
  json_result resp = Val (JObj items) ->
  dict_lookup "error" items = None ->
  fst (expect_400_error net name word payload url key verbose s) = Val false.
Proof using Hnet.
  intros Hj Hl. destruct verbose; ev; rewrite Hnet; ev;
    destruct (status_code resp =? 400); ev; rewrite ?Hj; ev; data Hl;
    rewrite print_result_run; by ev.
Qed.

Lemma missing_body_on_object items :
  json_result resp = Val (JObj items) ->
  fst (test_missing_body net url key verbose s)
  = Val ((status_code resp =? 400) && dict_has "error" items).
Proof using Hnet.
  intros Hj. destruct verbose; ev; rewrite Hnet; ev;
    destruct (status_code resp =? 400); ev; rewrite ?Hj; ev;
    unfold py_in, dict_has; destruct (dict_lookup "error" items) eqn:Hl; ev;
    data Hl; rewrite print_result_run; by ev.
Qed.

Lemma invalid_json_on_object items :
  json_result resp = Val (JObj items) ->
  dict_lookup "error" items = None
  \/ (exists msg, dict_lookup "error" items = Some (JStr msg)) ->
  fst (test_invalid_json net url key verbose s) = Val (status_code resp =? 400).
Proof using Hnet.
  intros Hj [Hl | [msg Hl]]; destruct verbose; ev; rewrite Hnet; ev;
    destruct (status_code resp =? 400); ev; rewrite ?Hj; ev; data Hl;
    try destruct (str_contains "Invalid JSON" msg); ev; data Hl;
    rewrite print_result_run; by ev.
Qed.

Lemma success_on_text_content items a c :
  json_result resp = Val (JObj items) ->
  dict_lookup "assistant" items = Some (JObj a) ->
  dict_lookup "content" a = Some (JStr c) ->
  fst (test_success_request net url key verbose s) = Val (status_code resp =? 200).
Proof using Hnet.
  intros Hj Ha Hc. destruct verbose; ev; rewrite Hnet; ev;
    destruct (status_code resp =? 200); ev; rewrite ?Hj; ev; data Ha; data Hc;
    data Ha; data Hc; rewrite print_result_run; by ev.
Qed.

End OnResponse.

(** ** Validation-failure scenarios *)

Lemma val_eq_iff {A} (r : res A) (a b : A) : r = Val b -> r = Val a <-> b = a.
Proof. intros ->. split; congruence. Qed.

Lemma is_object_inv (d : json) : is_object d = true -> exists items, d = JObj items.
Proof. destruct d; try done. eauto. Qed.

Lemma error_is_text_inv (items : list (string * json)) :
  error_is_text (JObj items) = true ->
  dict_lookup "error" items = None
  \/ exists msg, dict_lookup "error" items = Some (JStr msg).
Proof.
  cbn. destruct (dict_lookup "error" items) as [[]|]; try done; eauto.
Qed.

(** The three scenarios that look for a word in the error message. *)
Lemma word_scenario_unfold net f word url key verbose s :
  (f, word) ∈ [ (test_missing_thread_id net, "threadId");
               (test_messages_not_array net, "array");
               (test_empty_messages net, "empty") ] ->
  exists name payload banner,
    f url key verbose s
    = expect_400_error net name word payload url key verbose
        (State (sent s) (out s ++ [banner])).
Proof.
  intros Hin.
  repeat (apply elem_of_cons in Hin as [Hin|Hin]; [injection Hin as -> ->|]);
    [..|by apply elem_of_nil in Hin]; by eexists _, _, _.
Qed.

(** C1 (amended).  For missing-threadid, messages-not-array and
    empty-messages, on a response whose body, when it parses, is a JSON
    object with a string (or no) ["error"]: the scenario passes iff the
    status is 400, the body parses, and the object has an ["error"] whose
    text contains the scenario's word (threadId, array, empty).  For
    missing-body, on a response whose body, when it parses, is a JSON
    object: the scenario passes iff the status is 400, the body parses and
    the object has an ["error"] key, whatever its value: no word is looked
    for. *)
Theorem C1_validation_verdicts net url key verbose s resp :
  (forall r, net (sent s) r = Val resp) ->
  (forall d, json_result resp = Val d -> is_object d = true) ->
  ((forall d, json_result resp = Val d -> error_is_text d = true) ->
   forall f word,
     (f, word) ∈ [ (test_missing_thread_id net, "threadId");
                  (test_messages_not_array net, "array");
                  (test_empty_messages net, "empty") ] ->
     returns (f url key verbose) s true <->
     status_code resp = 400
     /\ exists items msg a b,
          json_result resp = Val (JObj items)
          /\ dict_lookup "error" items = Some (JStr msg)
          /\ msg = a +:+ word +:+ b)
  /\ (returns (test_missing_body net url key verbose) s true <->
      status_code resp = 400
      /\ exists items v,
           json_result resp = Val (JObj items) /\ dict_lookup "error" items = Some v).
Proof.
  intros Hnet Hobj. split.
  - intros Htext f word Hin.
    destruct (word_scenario_unfold net f word url key verbose s Hin)
      as (name & payload & banner & Hf).
    unfold returns. rewrite Hf. clear Hf Hin f.
    set (s' := State (sent s) (out s ++ [banner])).
    assert (forall r, net (sent s') r = Val resp) as Hnet' by done.
    destruct (json_result resp) as [d|e] eqn:Hj.
    + destruct (is_object_inv d (Hobj d eq_refl)) as [items ->].
      destruct (error_is_text_inv items (Htext _ eq_refl)) as [Hl | [msg Hl]].
      * rewrite (val_eq_iff _ true false)
          by (by apply (expect_400_error_no_error _ _ _ _ _ resp) with items).
        split; [done|]. intros (_ & items' & msg & a & b & [= <-] & Hl' & _).
        congruence.
      * rewrite (val_eq_iff _ true ((status_code resp =? 400) && str_contains word msg))
          by (by apply (expect_400_error_on_text _ _ _ _ _ resp) with items).
        rewrite andb_true_iff, Z.eqb_eq, str_contains_spec. split.
        -- intros (Hs & a & b & ->). split; [done|]. by exists items, (a +:+ word +:+ b), a, b.
        -- intros (Hs & items' & msg' & a & b & [= <-] & Hl' & ->).
           split; [done|]. exists a, b. congruence.
    + split; [|by intros (_ & ? & ? & ? & ? & ? & _)].
      destruct verbose; ev; rewrite Hnet; ev; destruct (status_code resp =? 400);
        ev; rewrite ?Hj; ev; repeat ev_step; done.
  - destruct (json_result resp) as [d|e] eqn:Hj.
    + destruct (is_object_inv d (Hobj d eq_refl)) as [items ->].
      unfold returns.
      rewrite (val_eq_iff _ true ((status_code resp =? 400) && dict_has "error" items))
        by (by apply (missing_body_on_object _ _ _ _ _ resp)).
      rewrite andb_true_iff, Z.eqb_eq. unfold dict_has. split.
      * intros [Hs Hl]. split; [done|]. exists items.
        destruct (dict_lookup "error" items) as [v|]; [by exists v|done].
      * intros (Hs & items' & v & [= <-] & ->). done.
    + split; [|by intros (_ & ? & ? & ? & _)].
      unfold returns.
      destruct verbose; ev; rewrite Hnet; ev; destruct (status_code resp =? 400);
        ev; rewrite ?Hj; ev; repeat ev_step; done.
Qed.

(** The API's documented answer to a request without threadId passes the
    missing-threadid scenario. *)
Lemma C1_validation_verdicts_witness :
  returns (test_missing_thread_id (answering thread_id_required) "url" "key" false)
    initial true.
Proof.
  destruct (C1_validation_verdicts (answering thread_id_required)
              "url" "key" false initial thread_id_required) as [H _].
  - intros r. reflexivity.
  - intros d [= <-]. reflexivity.
  - apply (H (fun d (E : json_result thread_id_required = Val d) =>
                match E in (_ = y) return
                      (match y with Val d' => error_is_text d' = true | Exc _ => True end)
                with eq_refl => eq_refl end)
             (test_missing_thread_id (answering thread_id_required)) "threadId").
    + apply list_elem_of_here.
    + split; [reflexivity|].
      by exists [("error", JStr "threadId is required")], "threadId is required",
                "", " is required".
Defined.

(** C1 as stated fails on missing-body: a 400 whose ["error"] is the empty
    string passes, although the empty string contains no word at all. *)
Lemma C1_missing_body_counterexample :
  returns (test_missing_body (answering empty_error) "url" "key" false) initial true
  /\ (forall word, str_contains word "" = true -> word = "").
Proof.
  split; [by vm_compute|].
  intros word. by destruct word.
Qed.

(** C2 (amended).  The invalid-json scenario passes on every 400 response
    whose body parses as a JSON object whose ["error"] is a string or is
    absent: neither the words "Invalid JSON" nor the ["error"] key itself are
    required.  It fails on every such response with another status. *)
Theorem C2_invalid_json_permissive net url key verbose s resp items :
  (forall r, net (sent s) r = Val resp) ->
  json_result resp = Val (JObj items) ->
  (dict_lookup "error" items = None
   \/ exists msg, dict_lookup "error" items = Some (JStr msg)) ->
  (status_code resp = 400 -> returns (test_invalid_json net url key verbose) s true)
  /\ (status_code resp <> 400 -> returns (test_invalid_json net url key verbose) s false).
Proof.
  intros Hnet Hj Hl. unfold returns.
  rewrite (invalid_json_on_object net url key verbose s resp Hnet items Hj Hl).
  split; intros Hs; f_equal; [by apply Z.eqb_eq | by apply Z.eqb_neq].
Qed.

(** A parser error worded differently from "Invalid JSON" passes. *)
Lemma C2_invalid_json_permissive_witness :
  str_contains "Invalid JSON" "Unexpected token i in JSON at position 1" = false
  /\ returns (test_invalid_json (answering parse_error) "url" "key" false) initial true.
Proof.
  split; [reflexivity|].
  refine (proj1 (C2_invalid_json_permissive (answering parse_error) "url" "key" false
                   initial parse_error _ (fun _ => eq_refl) eq_refl _) eq_refl).
  right. by eexists.
Defined.

(** C2 as stated fails in its second half: a 400 whose JSON body has no
    ["error"] key passes. *)
Lemma C2_no_error_key_counterexample :
  dict_lookup "error" [] = None
  /\ json_result no_error_key = Val (JObj [])
  /\ returns (test_invalid_json (answering no_error_key) "url" "key" false) initial true.
Proof. by vm_compute. Qed.

(** ** Authentication-failure scenarios *)

(** C9.  The missing-key and invalid-key scenarios pass iff the status of the
    response is 403, and fail on every other status, whatever the body and
    the headers of the response. *)
Theorem C9_auth_verdict_is_status_403 net url key verbose s resp :
  (forall r, net (sent s) r = Val resp) ->
  (returns (test_missing_api_key net url key verbose) s true <-> status_code resp = 403)
  /\ (returns (test_invalid_api_key net url key verbose) s true <-> status_code resp = 403)
  /\ (status_code resp <> 403 ->
      returns (test_missing_api_key net url key verbose) s false
      /\ returns (test_invalid_api_key net url key verbose) s false).
Proof.
  intros Hnet. unfold returns.
  rewrite !(auth_scenario_result net url key verbose s resp Hnet) by auto.
  destruct (Z.eqb_spec (status_code resp) 403); split_and!; try split; congruence.
Qed.

(** A 403 whose body is not even JSON passes the missing-key scenario. *)
Lemma C9_auth_verdict_is_status_403_witness :
  returns (test_missing_api_key (answering forbidden) "url" "key" false) initial true.
Proof.
  exact (proj2 (proj1 (C9_auth_verdict_is_status_403 (answering forbidden) "url" "key"
                         false initial forbidden (fun _ => eq_refl))) eq_refl).
Defined.

(** ** The success scenario *)

(** C3, at the failing input.  A 200 response whose body is
    [{"assistant": {"content": 5}}] has the key path assistant.content, yet
    the scenario does not return: slicing the number for the excerpt of the
    pass message raises a [TypeError], which none of its [except] clauses
    handles. *)
Theorem C3_numeric_content_raises :
  py_in "assistant" (JObj [("assistant", JObj [("content", JInt 5)])]) = Val true
  /\ py_in "content" (JObj [("content", JInt 5)]) = Val true
  /\ raises (test_success_request (answering numeric_content) "url" "key" false) initial
       (Exn TypeError "'int' object is not subscriptable").
Proof. by vm_compute. Qed.

(** On the bodies the API documents (assistant.content is a string) the
    success scenario passes iff the status is 200. *)
Theorem success_verdict_on_text_content net url key verbose s resp items a c :
  (forall r, net (sent s) r = Val resp) ->
  json_result resp = Val (JObj items) ->
  dict_lookup "assistant" items = Some (JObj a) ->
  dict_lookup "content" a = Some (JStr c) ->
  returns (test_success_request net url key verbose) s true <-> status_code resp = 200.
Proof.
  intros Hnet Hj Ha Hc. unfold returns.
  rewrite (success_on_text_content net url key verbose s resp Hnet items a c Hj Ha Hc).
  rewrite <- Z.eqb_eq. split; congruence.
Qed.

Lemma success_verdict_on_text_content_witness :
  returns (test_success_request (answering hello_test) "url" "key" false) initial true.
Proof.
  exact (proj2 (success_verdict_on_text_content (answering hello_test) "url" "key" false
                  initial hello_test _ _ "Hello test" (fun _ => eq_refl)
                  eq_refl eq_refl eq_refl) eq_refl).
Defined.

(** ** Timeouts *)



(** ** The request builder *)











(** ** Configuration *)

Lemma env_truthy_spec (v : option string) :
  env_truthy v = true <-> exists x, v = Some x /\ x <> "".
Proof.
  destruct v as [x|]; cbn.
  - rewrite negb_true_iff, String.eqb_neq. split; [by exists x|]. by intros (? & [= <-] & ?).
  - split; [done|]. by intros (? & ? & _).
Qed.

Lemma get_api_url_run environ env s :
  get_api_url environ env s
  = let source := if String.eqb env "prod" then "PROD_API_URL" else "TEST_API_URL" in
    if env_truthy (environ !! source)
    then (Val (default "" (environ !! source)), s)
    else (Exc (Exn EnvironmentError
                 (source +:+ " environment variable is not set." +:+ nl +:+
                  "Set it with: export " +:+ source +:+
                  (if String.eqb env "prod" then "=your_prod_url" else "=your_test_url"))), s).
Proof.
  unfold get_api_url. destruct (String.eqb env "prod"); cbn zeta;
    by destruct (env_truthy _).
Qed.

Lemma get_api_key_run environ s :
  get_api_key environ s
  = if env_truthy (environ !! "API_KEY")
    then (Val (default "" (environ !! "API_KEY")), s)
    else (Exc (Exn EnvironmentError
                 ("API_KEY environment variable is not set." +:+ nl +:+
                  "Set it with: export API_KEY=your_api_key")), s).
Proof. unfold get_api_key. cbn zeta. by destruct (env_truthy _). Qed.

Lemma get_api_url_from environ env source s :
  source = (if String.eqb env "prod" then "PROD_API_URL" else "TEST_API_URL") ->
  (forall url, returns (get_api_url environ env) s url
               <-> environ !! source = Some url /\ url <> "")
  /\ ((exists e, raises (get_api_url environ env) s e)
      <-> environ !! source = None \/ environ !! source = Some "")
  /\ (forall e, raises (get_api_url environ env) s e
                -> exn_class_of e = EnvironmentError).
Proof.
  intros Hsrc. unfold returns, raises. rewrite get_api_url_run. cbn zeta.
  rewrite <- Hsrc. clear Hsrc.
  destruct (env_truthy (environ !! source)) eqn:Ht.
  - apply env_truthy_spec in Ht as (x & Hx & Hne). rewrite Hx. cbn. split_and!.
    + intros url. split; [by intros [= <-]|]. by intros [[= <-] _].
    + split; [by intros [? ?]|]. intros [?|[= ->]]; done.
    + done.
  - assert (environ !! source = None \/ environ !! source = Some "") as Hcase.
    { destruct (environ !! source) as [x|]; [|by left]. right.
      cbn in Ht. apply negb_false_iff, String.eqb_eq in Ht. by subst. }
    cbn. split_and!.
    + intros url. split; [done|]. intros [Hx Hne]. destruct Hcase; congruence.
    + split; [done|]. by eexists.
    + by intros e [= <-].
Qed.

(** C10.  For every environment name other than "prod" the base URL is
    read from TEST_API_URL, and for "prod" alone from PROD_API_URL;
    [get_api_url] returns the value of the selected variable when it is set
    and not empty, and raises the configuration error [EnvironmentError]
    exactly when it is unset or empty. *)
Theorem C10_url_source environ env s :
  (env <> "prod" ->
   (forall url, returns (get_api_url environ env) s url
                <-> environ !! "TEST_API_URL" = Some url /\ url <> "")
   /\ ((exists e, raises (get_api_url environ env) s e)
       <-> environ !! "TEST_API_URL" = None \/ environ !! "TEST_API_URL" = Some ""))
  /\ (env = "prod" ->
      (forall url, returns (get_api_url environ env) s url
                   <-> environ !! "PROD_API_URL" = Some url /\ url <> "")
      /\ ((exists e, raises (get_api_url environ env) s e)
          <-> environ !! "PROD_API_URL" = None \/ environ !! "PROD_API_URL" = Some ""))
  /\ (forall e, raises (get_api_url environ env) s e
                -> exn_class_of e = EnvironmentError).
Proof.
  split_and!.
  - intros Hne. apply String.eqb_neq in Hne.
    destruct (get_api_url_from environ env "TEST_API_URL" s) as (? & ? & _);
      [by rewrite Hne|done].
  - intros ->.
    destruct (get_api_url_from environ "prod" "PROD_API_URL" s) as (? & ? & _); done.
  - destruct (String.eqb env "prod") eqn:He.
    + by destruct (get_api_url_from environ env "PROD_API_URL" s) as (_ & _ & ?);
        [rewrite He|].
    + by destruct (get_api_url_from environ env "TEST_API_URL" s) as (_ & _ & ?);
        [rewrite He|].
Qed.

(** An environment name that is not "prod" (here one that is not "test"
    either) reads TEST_API_URL, even when PROD_API_URL is set. *)
Lemma C10_url_source_witness :
  returns (get_api_url {[ "TEST_API_URL" := "https://test.example";
                          "PROD_API_URL" := "https://prod.example" ]} "staging")
    initial "https://test.example".
Proof.
  refine (proj2 (proj1 (proj1 (C10_url_source _ "staging" initial) _) _) _).
  - discriminate.
  - split; [reflexivity | discriminate].
Defined.

(** ** The runner *)

Lemma run_one_run url key verbose name f r s :
  run_one url key verbose name f r s
  = match f url key verbose s with
    | (Val ok, s') => (Val (record name ok r), s')
    | (Exc e, s') =>
        (Val (record name false r),
         State (sent s')
               (out s' ++ verdict_lines name false
                            [Lit "Unexpected error: "; Lit (exn_str e)]))
    end.
Proof.
  unfold run_one, record. ev. destruct (f url key verbose s) as [[ok|e] s'].
  - by destruct ok.
  - unfold is_Exception. rewrite print_result_run. by ev.
Qed.

Lemma run_tests_cons url key verbose name f rest r s :
  run_tests url key verbose ((name, f) :: rest) r s
  = match f url key verbose s with
    | (Val ok, s') => run_tests url key verbose rest (record name ok r) s'
    | (Exc e, s') =>
        run_tests url key verbose rest (record name false r)
          (State (sent s')
                 (out s' ++ verdict_lines name false
                              [Lit "Unexpected error: "; Lit (exn_str e)]))
    end.
Proof.
  cbn [run_tests]. unfold bind. rewrite run_one_run.
  by destruct (f url key verbose s) as [[ok|e] s'].
Qed.

Lemma count_verdicts_cons ok name b ds :
  count_verdicts ok ((name, b) :: ds)
  = ((if Bool.eqb b ok then 1 else 0) + count_verdicts ok ds)%nat.
Proof. unfold count_verdicts. cbn. by destruct (Bool.eqb b ok). Qed.

(** The loop ends normally whatever its entries do, with one more verdict
    per entry, in order, and with counters that count them. *)
Lemma run_tests_total url key verbose entries :
  forall r s,
  exists r' s' ds,
    run_tests url key verbose entries r s = (Val r', s')
    /\ details r' = details r ++ ds
    /\ map fst ds = map fst entries
    /\ (passed r' = passed r + count_verdicts true ds)%nat
    /\ (failed r' = failed r + count_verdicts false ds)%nat.
Proof.
  induction entries as [|[name f] rest IH]; intros r s.
  - exists r, s, []. cbn. rewrite app_nil_r. split_and!; try done; lia.
  - rewrite run_tests_cons.
    destruct (f url key verbose s) as [[ok|e] s1] eqn:Hf;
      [ destruct (IH (record name ok r) s1) as (r' & s' & ds & -> & Hd & Hn & Hp & Hq);
        exists r', s', ((name, ok) :: ds)
      | match goal with |- context [run_tests _ _ _ _ _ ?st] =>
          destruct (IH (record name false r) st)
            as (r' & s' & ds & -> & Hd & Hn & Hp & Hq) end;
        exists r', s', ((name, false) :: ds) ];
      cbn [details passed failed record] in Hd, Hp, Hq;
      rewrite <- app_assoc in Hd; rewrite !count_verdicts_cons;
      (split_and!; [done | done | by cbn; rewrite Hn | |]);
      try destruct ok; cbn; lia.
Qed.

Lemma run_tests_app url key verbose pre post :
  forall r s,
  run_tests url key verbose (pre ++ post) r s
  = match run_tests url key verbose pre r s with
    | (Val r1, s1) => run_tests url key verbose post r1 s1
    | (Exc e, s1) => (Exc e, s1)
    end.
Proof.
  induction pre as [|[name f] pre IH]; intros r s; [done|].
  rewrite <- app_comm_cons, !run_tests_cons.
  destruct (f url key verbose s) as [[ok|e] s']; apply IH.
Qed.


(** C5.  A full run ends normally and records exactly one verdict per
    scenario, nine in all, in the order of the registry; the passed and
    failed counters count these verdicts, so they add up to nine. *)
Theorem C5_one_verdict_per_scenario net url key verbose s :
  exists r s',
    run_all_tests net url key verbose s = (Val r, s')
    /\ map fst (details r)
       = [ "Success Request"; "Missing Body"; "Invalid JSON"; "Missing threadId";
           "Messages Not Array"; "Empty Messages"; "Missing API Key";
           "Invalid API Key"; "CORS Preflight" ]
    /\ length (details r) = 9%nat
    /\ passed r = count_verdicts true (details r)
    /\ failed r = count_verdicts false (details r)
    /\ (passed r + failed r = 9)%nat.
Proof.
  unfold run_all_tests.
  destruct (run_tests_total url key verbose (tests net) (Results 0 0 []) s)
    as (r & s' & ds & -> & Hd & Hn & Hp & Hq).
  cbn in Hd, Hn, Hp, Hq.
  assert (length ds = 9%nat) as Hlen by (by rewrite <- (length_map fst), Hn).
  exists r, s'. rewrite Hd, Hp, Hq. split_and!; try done.
  rewrite <- Hlen. clear.
  induction ds as [|[n b] ds IH]; [done|].
  rewrite !count_verdicts_cons. cbn [length]. destruct b; cbn; lia.
Qed.

Lemma tests_are_scenarios net name f :
  (name, f) ∈ tests net -> exists label, (f, label) ∈ scenarios net.
Proof.
  unfold tests, scenarios. intros Hin.
  repeat (apply elem_of_cons in Hin as [Hin|Hin];
          [injection Hin as -> ->; eexists;
           repeat first [apply list_elem_of_here | apply list_elem_of_further]|]).
  by apply elem_of_nil in Hin.
Qed.

(** The loop only adds to what was sent and printed, and sends one request
    per entry when its entries do. *)
Lemma run_tests_frame url key verbose entries :
  (forall name f, (name, f) ∈ entries ->
     forall s, exists req lines,
       snd ((f : test_func) url key verbose s) = State (sent s ++ [req]) (out s ++ lines)) ->
  forall r s,
  exists reqs lines,
    snd (run_tests url key verbose entries r s) = State (sent s ++ reqs) (out s ++ lines)
    /\ length reqs = length entries.
Proof.
  induction entries as [|[name f] rest IH]; intros Hf r s.
  - exists [], []. cbn. rewrite !app_nil_r. by destruct s.
  - rewrite run_tests_cons.
    destruct (Hf name f (list_elem_of_here _ _) s) as (req & lines & Hs).
    assert (forall name f, (name, f) ∈ rest ->
              forall s, exists req lines,
                snd ((f : test_func) url key verbose s)
                = State (sent s ++ [req]) (out s ++ lines)) as Hrest.
    { intros n g Hin. apply (Hf n g). by apply list_elem_of_further. }
    destruct (f url key verbose s) as [[ok|e] s1]; cbn [snd] in Hs; subst s1;
      match goal with |- context [run_tests _ _ _ _ ?r1 ?st] =>
        destruct (IH Hrest r1 st) as (reqs & lines' & -> & Hlen) end;
      cbn [sent out]; rewrite <- !app_assoc;
      eexists (req :: reqs), _; (split; [reflexivity|]); cbn; by rewrite Hlen.
Qed.

(** C6.  When a scenario of the registry raises an exception (one that its
    own [except] clauses did not turn into a verdict), the full run still
    ends normally: that scenario is recorded as failed, under its name and
    at its place, the failure is printed as "Unexpected error", all nine
    verdicts are recorded and all nine requests have been sent. *)
Theorem C6_exception_becomes_fail_verdict net url key verbose s i name
    (f : test_func) e :
  tests net !! i = Some (name, f) ->
  raises (f url key verbose)
    (snd (run_tests url key verbose (take i (tests net)) (Results 0 0 []) s)) e ->
  exists r s',
    run_all_tests net url key verbose s = (Val r, s')
    /\ details r !! i = Some (name, false)
    /\ length (details r) = 9%nat
    /\ (exists reqs, sent s' = sent s ++ reqs /\ length reqs = 9%nat)
    /\ (exists before after,
          out s' = before
                   ++ verdict_lines name false [Lit "Unexpected error: "; Lit (exn_str e)]
                   ++ after).
Proof.
  intros Hi Hraise. unfold raises in Hraise.
  set (r0 := Results 0 0 []) in *.
  assert (length (take i (tests net)) = i) as Hpre.
  { apply length_take_le. by eapply Nat.lt_le_incl, lookup_lt_Some. }
  remember (take i (tests net)) as pre eqn:Epre in *.
  remember (drop (S i) (tests net)) as post eqn:Epost in *.
  assert (pre ++ (name, f) :: post = tests net) as Hsplit
    by (subst pre post; apply take_drop_middle, Hi).
  assert (forall name f, (name, f) ∈ tests net ->
            forall s, exists req lines,
              snd ((f : test_func) url key verbose s)
              = State (sent s ++ [req]) (out s ++ lines)) as Hframe.
  { intros n g Hin s1. destruct (tests_are_scenarios net n g Hin) as [label Hl].
    destruct (scenario_frame net url key verbose s1 g label Hl) as (req & lines & ? & _).
    by exists req, lines. }
  destruct (run_tests_frame url key verbose (tests net) Hframe r0 s)
    as (reqs & lines & Hst & Hreqs).
  unfold run_all_tests. fold r0. revert Hst. rewrite <- Hsplit.
  rewrite run_tests_app.
  destruct (run_tests_total url key verbose pre r0 s)
    as (ri & si & ds & Hrun & Hd & Hn & _). rewrite Hrun in Hraise |- *.
  cbn [snd] in Hraise. rewrite run_tests_cons.
  destruct (f url key verbose si) as [[ok|e'] se]; cbn [fst] in Hraise; [done|].
  injection Hraise as ->.
  match goal with |- context [run_tests _ _ _ post ?r1 ?st] =>
    destruct (run_tests_total url key verbose post r1 st)
      as (r' & s' & ds' & Hrun' & Hd' & Hn' & _);
    assert (forall name f, (name, f) ∈ post ->
              forall s, exists req lines,
                snd ((f : test_func) url key verbose s)
                = State (sent s ++ [req]) (out s ++ lines)) as Hpost
      by (intros n g Hin; apply (Hframe n g); rewrite <- Hsplit;
          apply elem_of_app; right; by apply list_elem_of_further);
    destruct (run_tests_frame url key verbose post Hpost r1 st)
      as (reqs' & lines' & Hst' & _) end.
  rewrite Hrun' in Hst' |- *. cbn [snd sent out] in Hst'. intros Hst. cbn [snd] in Hst.
  exists r', s'. cbn [details record] in Hd'. cbn in Hd.
  assert (length ds = i) as Hds by (by rewrite <- (length_map fst), Hn, length_map).
  assert (length ds' = length post) as Hds'
    by (by rewrite <- (length_map fst), Hn', length_map).
  split_and!.
  - done.
  - rewrite Hd', Hd, <- app_assoc. rewrite lookup_app_r by lia.
    by replace (i - length ds)%nat with 0%nat by lia.
  - rewrite Hd', Hd, !length_app, Hds, Hds'. cbn.
    transitivity (length (pre ++ (name, f) :: post)); [|by rewrite Hsplit].
    rewrite length_app. cbn. lia.
  - exists reqs. rewrite Hst. cbn. split; [done|]. by rewrite Hreqs.
  - rewrite Hst'. cbn [out]. eexists _, _. rewrite <- app_assoc. reflexivity.
Qed.

(** A 200 answer whose body is the bare number 5 makes the success scenario
    raise a [TypeError]; the run records it as failed and goes on. *)
Lemma C6_exception_becomes_fail_verdict_witness :
  exists r s',
    run_all_tests (answering bare_number) "url" "key" false initial = (Val r, s')
    /\ details r !! 0%nat = Some ("Success Request", false)
    /\ length (details r) = 9%nat.
Proof.
  assert (tests (answering bare_number) !! 0%nat
          = Some ("Success Request", test_success_request (answering bare_number)))
    as H1 by reflexivity.
  assert (raises (test_success_request (answering bare_number) "url" "key" false)
            (snd (run_tests "url" "key" false (take 0 (tests (answering bare_number)))
                    (Results 0 0 []) initial))
            (Exn TypeError "argument of type 'int' is not iterable"))
    as H2 by (vm_compute; reflexivity).
  destruct (C6_exception_becomes_fail_verdict _ _ _ _ _ _ _ _ _ H1 H2)
    as (r & s' & H3 & H4 & H5 & _).
  exists r, s'.
  split_and!; assumption.
Defined.

(** ** The exit status *)

Lemma get_api_key_returns environ s key :
  returns (get_api_key environ) s key <-> environ !! "API_KEY" = Some key /\ key <> "".
Proof.
  unfold returns. rewrite get_api_key_run.
  destruct (env_truthy (environ !! "API_KEY")) eqn:Ht.
  - apply env_truthy_spec in Ht as (x & -> & Hne). cbn.
    split; [by intros [= <-]|]. by intros [[= <-] _].
  - split; [done|]. intros [Hx Hne].
    assert (env_truthy (environ !! "API_KEY") = true) as Hc
      by (apply env_truthy_spec; eauto).
    congruence.
Qed.



Lemma get_api_url_returns environ env s url :
  returns (get_api_url environ env) s url ->
  env_truthy (environ !! url_variable env) = true
  /\ default "" (environ !! url_variable env) = url.
Proof.
  unfold returns. rewrite get_api_url_run. cbn zeta. fold (url_variable env).
  destruct (env_truthy (environ !! url_variable env)); [|done]. by intros [= <-].
Qed.








(** * Further properties of the script *)

(** ** What every scenario does with a wrong status or a failed request *)

Section Outcomes.

Variables (net : network) (url key : string) (verbose : bool) (s : state).

(** Any status other than the expected one fails the scenario, with the
    expected and the received status as detail; the body is not read. *)
Theorem wrong_status_fails (f : test_func) label resp :
  (f, label) ∈ scenarios net ->
  (forall r, net (sent s) r = Val resp) ->
  status_code resp <> expected_status label ->
  returns (f url key verbose) s false
  /\ exists pre,
       out (snd (f url key verbose s))
       = out s ++ pre
         ++ verdict_lines label false [Lit (expected_words label); FInt (status_code resp)].
Proof.
  intros Hin Hnet Hs. each_scenario Hin.
  all: apply Z.eqb_neq in Hs; cbn in Hs.
  all: destruct verbose; ev; rewrite Hnet; ev; rewrite Hs; ev;
    rewrite print_result_run; ev.
  all: split; [reflexivity|ends_with].
Qed.

(** A request that fails in the transport, other than by a timeout, fails
    the scenario with the text of the exception as detail: it does not
    raise. *)
Theorem request_failure_fails (f : test_func) label e :
  (f, label) ∈ scenarios net ->
  is_RequestException e = true ->
  is_Timeout e = false ->
  (forall r, net (sent s) r = Exc e) ->
  returns (f url key verbose) s false
  /\ exists pre,
       out (snd (f url key verbose s))
       = out s ++ pre
         ++ verdict_lines label false [Lit "Request failed: "; Lit (exn_str e)].
Proof.
  intros Hin Hr Ht Hnet. each_scenario Hin.
  all: destruct verbose; ev; rewrite Hnet; ev; rewrite ?Ht, ?Hr; ev;
    rewrite print_result_run; ev.
  all: split; [reflexivity|ends_with].
Qed.

(** An exception of the transport that is not a [RequestException] is not
    caught by the scenario (for the success scenario: unless it is a
    [json.JSONDecodeError]): the scenario raises it, and none of the lines
    it has printed is a verdict. *)
Theorem other_exception_propagates (f : test_func) label e :
  (f, label) ∈ scenarios net ->
  is_RequestException e = false ->
  (label = "Valid Request" -> is_JSONDecodeError e = false) ->
  (forall r, net (sent s) r = Exc e) ->
  raises (f url key verbose) s e
  /\ exists printed,
       out (snd (f url key verbose s)) = out s ++ printed
       /\ Forall (fun line => is_verdict_line line = false) printed.
Proof.
  intros Hin Hr Hj Hnet.
  assert (is_Timeout e = false) as Ht.
  { destruct (is_Timeout e) eqn:Ht; [|done].
    apply is_Timeout_RequestException in Ht. congruence. }
  each_scenario Hin.
  all: destruct verbose; ev; rewrite Hnet; ev; rewrite ?Ht, ?Hr, ?Hj by done; ev.
  all: split; [reflexivity|].
  all: rewrite <- ?app_assoc; eexists; split; [reflexivity|].
  all: repeat (apply Forall_cons_2; [reflexivity|]); apply Forall_nil_2.
Qed.

(** A 400 whose body is not JSON, in the five scenarios that read the body of
    a 400: when [response.json()] raises a [RequestException] (as requests
    2.27 and later do) the scenario fails with "Request failed"; when it
    raises anything else (the plain [json.JSONDecodeError] of older
    versions), the scenario raises it. *)
Theorem unparsed_400_body (f : test_func) label resp e :
  (f, label) ∈ validation_scenarios net ->
  (forall r, net (sent s) r = Val resp) ->
  status_code resp = 400 ->
  json_result resp = Exc e ->
  (is_RequestException e = true ->
   returns (f url key verbose) s false
   /\ exists pre,
        out (snd (f url key verbose s))
        = out s ++ pre
          ++ verdict_lines label false [Lit "Request failed: "; Lit (exn_str e)])
  /\ (is_RequestException e = false -> raises (f url key verbose) s e).
Proof.
  intros Hin Hnet Hs Hj. apply Z.eqb_eq in Hs.
  unfold validation_scenarios in Hin.
  repeat (apply elem_of_cons in Hin as [Hin|Hin]; [injection Hin as -> ->|]);
    [..|by apply elem_of_nil in Hin].
  all: split; intros Hr.
  all: destruct verbose; ev; rewrite Hnet; ev; rewrite Hs; ev; rewrite Hj; ev;
    rewrite Hr; ev; rewrite ?print_result_run; ev.
  all: first [reflexivity | split; [reflexivity|ends_with]].
Qed.

(** A 200 whose body is not JSON never passes the success scenario and never
    makes it raise: it fails with "Request failed" when [response.json()]
    raises a [RequestException], and with "Invalid JSON response" when it
    raises a plain [json.JSONDecodeError]. *)
Theorem unparsed_200_body resp e :
  (forall r, net (sent s) r = Val resp) ->
  status_code resp = 200 ->
  json_result resp = Exc e ->
  is_JSONDecodeError e = true ->
  returns (test_success_request net url key verbose) s false
  /\ exists pre,
       out (snd (test_success_request net url key verbose s))
       = out s ++ pre
         ++ verdict_lines "Valid Request" false
              [Lit (if is_RequestException e then "Request failed: "
                    else "Invalid JSON response: ");
               Lit (exn_str e)].
Proof.
  intros Hnet Hs Hj Hd. apply Z.eqb_eq in Hs.
  assert (is_Timeout e = false) as Ht.
  { unfold is_Timeout, is_JSONDecodeError in *. by destruct (exn_class_of e). }
  destruct verbose; ev; rewrite Hnet; ev; rewrite Hs; ev; rewrite Hj; ev;
    rewrite Ht; ev; destruct (is_RequestException e); ev; rewrite ?Hd; ev;
    rewrite print_result_run; ev; (split; [reflexivity|ends_with]).
Qed.

(** The preflight scenario passes iff the status is 200 and the response
    carries both Access-Control-Allow-Origin and Access-Control-Allow-Methods
    with a value that is not empty; the body is not read.  With status 200
    and one of them missing it fails with "Missing CORS headers in
    response". *)
Theorem cors_verdict resp :
  (forall r, net (sent s) r = Val resp) ->
  let origin := headers_get "Access-Control-Allow-Origin" (resp_headers resp) "" in
  let methods := headers_get "Access-Control-Allow-Methods" (resp_headers resp) "" in
  (returns (test_cors_preflight net url key verbose) s true
   <-> status_code resp = 200 /\ origin <> "" /\ methods <> "")
  /\ (status_code resp = 200 -> origin = "" \/ methods = "" ->
      returns (test_cors_preflight net url key verbose) s false
      /\ exists pre,
           out (snd (test_cors_preflight net url key verbose s))
           = out s ++ pre
             ++ verdict_lines "CORS Preflight" false
                  [Lit "Missing CORS headers in response"]).
Proof.
  intros Hnet origin methods. split.
  - destruct verbose; ev; rewrite Hnet; ev;
      (destruct (Z.eqb_spec (status_code resp) 200) as [Hs|Hs]; ev;
       [fold origin methods;
        destruct (String.eqb_spec origin "") as [Ho|Ho];
        destruct (String.eqb_spec methods "") as [Hm|Hm]; cbn [negb andb]; ev
       |]; rewrite print_result_run; ev;
       (split; [try done; intros _; by split_and! | by intros (? & ? & ?)])).
  - intros Hs Hmiss. apply Z.eqb_eq in Hs.
    assert (negb (String.eqb origin "") && negb (String.eqb methods "") = false) as Hb.
    { destruct Hmiss as [-> | ->]; cbn; [done|]. apply andb_false_r. }
    destruct verbose; ev; rewrite Hnet; ev; rewrite Hs; ev; fold origin methods;
      rewrite Hb; ev; rewrite print_result_run; ev; (split; [reflexivity|ends_with]).
Qed.

End Outcomes.

Ltac nth_scenario :=
  unfold scenarios, validation_scenarios;
  repeat first [apply list_elem_of_here | apply list_elem_of_further].

(** The missing-threadid scenario against a server that answers 200. *)
Lemma wrong_status_fails_witness :
  returns (test_missing_thread_id (answering hello_test) "url" "key" false) initial false.
Proof.
  refine (proj1 (wrong_status_fails (answering hello_test) "url" "key" false initial
                   _ "Missing threadId" hello_test _ (fun _ => eq_refl) _)).
  - nth_scenario.
  - intros H. vm_compute in H. discriminate H.
Defined.

Lemma request_failure_fails_witness :
  returns (test_invalid_api_key (failing refused) "url" "key" false) initial false.
Proof.
  refine (proj1 (request_failure_fails (failing refused) "url" "key" false initial
                   _ "Invalid API Key" refused _ eq_refl eq_refl (fun _ => eq_refl))).
  nth_scenario.
Defined.

Lemma other_exception_propagates_witness :
  raises (test_success_request (failing out_of_memory) "url" "key" false) initial
    out_of_memory.
Proof.
  refine (proj1 (other_exception_propagates (failing out_of_memory) "url" "key" false
                   initial _ "Valid Request" out_of_memory _ eq_refl (fun _ => eq_refl)
                   (fun _ => eq_refl))).
  nth_scenario.
Defined.

(** The same HTML error page, under the two versions of requests. *)
Lemma unparsed_400_body_witness :
  returns (test_missing_body (answering html_400) "url" "key" false) initial false
  /\ raises (test_missing_body (answering html_400_old) "url" "key" false) initial
       (Exn JSONDecodeError "Expecting value: line 1 column 1 (char 0)").
Proof.
  split.
  - refine (proj1 (proj1 (unparsed_400_body (answering html_400) "url" "key" false initial
                            _ "Missing Body" html_400 _ _ (fun _ => eq_refl)
                            eq_refl eq_refl) eq_refl)).
    nth_scenario.
  - refine (proj2 (unparsed_400_body (answering html_400_old) "url" "key" false initial
                     _ "Missing Body" html_400_old _ _ (fun _ => eq_refl)
                     eq_refl eq_refl) eq_refl).
    nth_scenario.
Defined.

Lemma unparsed_200_body_witness :
  returns (test_success_request (answering html_200_old) "url" "key" false) initial false.
Proof.
  exact (proj1 (unparsed_200_body (answering html_200_old) "url" "key" false initial
                  html_200_old _ (fun _ => eq_refl) eq_refl eq_refl eq_refl)).
Defined.

(** Header names are matched without regard to case; a preflight answer
    without allow-methods fails. *)
Lemma cors_verdict_witness :
  returns (test_cors_preflight (answering cors_allowed) "url" "key" false) initial true
  /\ returns (test_cors_preflight (answering cors_no_methods) "url" "key" false)
       initial false.
Proof.
  split.
  - refine (proj2 (proj1 (cors_verdict (answering cors_allowed) "url" "key" false
                            initial cors_allowed (fun _ => eq_refl))) _).
    split_and!; [reflexivity | discriminate | discriminate].
  - refine (proj1 (proj2 (cors_verdict (answering cors_no_methods) "url" "key" false
                            initial cors_no_methods (fun _ => eq_refl)) eq_refl _)).
    by right.
Defined.

(** ** Verbosity, repetition and order *)

(** The verbose flag changes neither the verdict of a scenario nor the
    request it sends. *)
Theorem verbose_only_prints net url key s (f : test_func) label :
  (f, label) ∈ scenarios net ->
  fst (f url key true s) = fst (f url key false s)
  /\ sent (snd (f url key true s)) = sent (snd (f url key false s)).
Proof.
  intros Hin. each_scenario Hin.
  all: ev_cases; done.
Qed.

Lemma verbose_only_prints_witness :
  fst (test_success_request (answering hello_test) "url" "key" true initial)
  = fst (test_success_request (answering hello_test) "url" "key" false initial).
Proof.
  refine (proj1 (verbose_only_prints (answering hello_test) "url" "key" initial
                   _ "Valid Request" _)).
  nth_scenario.
Defined.

Lemma scenario_history_free net url key verbose (f : test_func) label :
  history_free net ->
  (f, label) ∈ scenarios net ->
  forall s s', fst (f url key verbose s) = fst (f url key verbose s').
Proof.
  intros Hfree Hin s s'. each_scenario Hin.
  all: destruct verbose; ev; rewrite (Hfree (sent s') (sent s)); ev_cases; done.
Qed.

Lemma run_tests_same_results url key v v' entries :
  (forall name f, (name, f) ∈ entries ->
     forall s s', fst ((f : test_func) url key v s) = fst (f url key v' s')) ->
  forall r s s',
    fst (run_tests url key v entries r s) = fst (run_tests url key v' entries r s').
Proof.
  induction entries as [|[name f] rest IH]; intros Hf r s s'; [done|].
  rewrite !run_tests_cons.
  pose proof (Hf name f (list_elem_of_here _ _) s s') as Hhd.
  assert (forall name f, (name, f) ∈ rest ->
            forall s s', fst ((f : test_func) url key v s) = fst (f url key v' s'))
    as Hrest by (intros n g Hin; apply (Hf n g); by apply list_elem_of_further).
  destruct (f url key v s) as [[ok|e] s1], (f url key v' s') as [[ok'|e'] s1'];
    cbn [fst] in Hhd; try done; injection Hhd as <-; by apply IH.
Qed.

(** Against a server whose answers do not depend on earlier requests, a
    full run gives the same results (counters and verdicts) whenever it is
    run: whatever was sent or printed before, verbose or not. *)
Theorem full_run_is_reproducible net url key v v' s s' :
  history_free net ->
  fst (run_all_tests net url key v s) = fst (run_all_tests net url key v' s').
Proof.
  intros Hfree. apply run_tests_same_results. intros name f Hin s1 s2.
  destruct (tests_are_scenarios net name f Hin) as [label Hl].
  destruct v, v'; try by apply (scenario_history_free net url key _ f label).
  - rewrite (proj1 (verbose_only_prints net url key s1 f label Hl)).
    by apply (scenario_history_free net url key _ f label).
  - rewrite (proj1 (verbose_only_prints net url key s2 f label Hl)).
    by apply (scenario_history_free net url key _ f label).
Qed.

Lemma answering_history_free resp : history_free (answering resp).
Proof. by intros h h' r. Qed.

(** Two runs in a row against the same server: the second starts from the
    state the first one left. *)
Lemma full_run_is_reproducible_witness :
  fst (run_all_tests (answering thread_id_required) "url" "key" false initial)
  = fst (run_all_tests (answering thread_id_required) "url" "key" false
           (snd (run_all_tests (answering thread_id_required) "url" "key" false initial))).
Proof.
  exact (full_run_is_reproducible (answering thread_id_required) "url" "key" false false
           initial _ (answering_history_free thread_id_required)).
Defined.

Lemma run_tests_alone net url key verbose entries :
  history_free net ->
  (forall name f, (name, f) ∈ entries -> (name, f) ∈ tests net) ->
  forall r s,
  exists r' s',
    run_tests url key verbose entries r s = (Val r', s')
    /\ details r' = details r ++ map (verdict_alone url key) entries
    /\ (passed r' = passed r + count_verdicts true (map (verdict_alone url key) entries))%nat
    /\ (failed r' = failed r + count_verdicts false (map (verdict_alone url key) entries))%nat.
Proof.
  intros Hfree. induction entries as [|[name f] rest IH]; intros Hin r s.
  - exists r, s. cbn. rewrite app_nil_r. split_and!; try done; lia.
  - assert (forall name f, (name, f) ∈ rest -> (name, f) ∈ tests net) as Hrest
      by (intros n g Hg; apply Hin; by apply list_elem_of_further).
    destruct (tests_are_scenarios net name f (Hin _ _ (list_elem_of_here _ _)))
      as [label Hl].
    assert (fst (f url key verbose s) = fst (f url key false initial)) as Hv.
    { transitivity (fst (f url key false s)).
      - destruct verbose; [|done]. apply (verbose_only_prints net url key s f label Hl).
      - by apply (scenario_history_free net url key false f label). }
    rewrite run_tests_cons. cbn [map]. unfold verdict_alone at 1 3 5. cbn [fst snd].
    rewrite <- Hv. rewrite !count_verdicts_cons.
    destruct (f url key verbose s) as [[ok|e] s1]; cbn [fst];
      match goal with |- context [run_tests _ _ _ rest ?r1 ?st] =>
        destruct (IH Hrest r1 st) as (r' & s' & -> & Hd & Hp & Hq) end;
      exists r', s'; cbn [details passed failed record] in Hd, Hp, Hq;
      rewrite <- app_assoc in Hd; (split_and!; [done | done | |]);
      try destruct ok; cbn; lia.
Qed.

Lemma count_verdicts_Permutation ok ds ds' :
  ds ≡ₚ ds' -> count_verdicts ok ds = count_verdicts ok ds'.
Proof.
  induction 1 as [|[n b] l l' _ IH|[n b] [n' b'] l|l l' l'' _ IH1 _ IH2].
  - done.
  - by rewrite !count_verdicts_cons, IH.
  - rewrite !count_verdicts_cons. lia.
  - congruence.
Qed.

(** Against a server whose answers do not depend on earlier requests,
    running the scenarios of the registry in another order gives every
    scenario the verdict it gets when run on its own, hence the same
    verdicts as the registry order, and the same counters. *)
Theorem order_does_not_change_verdicts net url key verbose entries s s' :
  history_free net ->
  entries ≡ₚ tests net ->
  exists r r0 s1 s2,
    run_tests url key verbose entries (Results 0 0 []) s = (Val r, s1)
    /\ run_all_tests net url key verbose s' = (Val r0, s2)
    /\ details r = map (verdict_alone url key) entries
    /\ details r0 = map (verdict_alone url key) (tests net)
    /\ details r ≡ₚ details r0
    /\ passed r = passed r0 /\ failed r = failed r0.
Proof.
  intros Hfree Hperm.
  destruct (run_tests_alone net url key verbose entries Hfree) with
    (r := Results 0 0 []) (s := s) as (r & s1 & Hr & Hd & Hp & Hq).
  { intros n g Hin. by rewrite <- Hperm. }
  destruct (run_tests_alone net url key verbose (tests net) Hfree) with
    (r := Results 0 0 []) (s := s') as (r0 & s2 & Hr0 & Hd0 & Hp0 & Hq0); [done|].
  cbn [details passed failed app Nat.add] in Hd, Hp, Hq, Hd0, Hp0, Hq0.
  assert (map (verdict_alone url key) entries ≡ₚ map (verdict_alone url key) (tests net))
    as Hmap by (by apply Permutation_map).
  exists r, r0, s1, s2. rewrite Hd, Hd0, Hp, Hq, Hp0, Hq0. split_and!; try done.
  - by apply count_verdicts_Permutation.
  - by apply count_verdicts_Permutation.
Qed.

(** The registry run backwards. *)
Lemma order_does_not_change_verdicts_witness :
  exists r r0 s1 s2,
    run_tests "url" "key" false (rev (tests (answering thread_id_required)))
      (Results 0 0 []) initial = (Val r, s1)
    /\ run_all_tests (answering thread_id_required) "url" "key" false initial = (Val r0, s2)
    /\ details r ≡ₚ details r0
    /\ passed r = passed r0 /\ failed r = failed r0.
Proof.
  destruct (order_does_not_change_verdicts (answering thread_id_required) "url" "key"
              false (rev (tests (answering thread_id_required))) initial initial
              (answering_history_free thread_id_required))
    as (r & r0 & s1 & s2 & H1 & H2 & _ & _ & H3 & H4 & H5).
  - symmetry. apply Permutation_rev.
  - exists r, r0, s1, s2. split_and!; assumption.
Defined.

(** ** The loop records what each scenario returns *)

(** In a full run, the verdict recorded for a scenario, at its place and
    under its registry name, is the value the scenario returned in the state
    in which the loop reached it. *)
Theorem recorded_verdict_is_return_value net url key verbose s i name
    (f : test_func) ok :
  tests net !! i = Some (name, f) ->
  returns (f url key verbose)
    (snd (run_tests url key verbose (take i (tests net)) (Results 0 0 []) s)) ok ->
  exists r s',
    run_all_tests net url key verbose s = (Val r, s')
    /\ details r !! i = Some (name, ok).
Proof.
  intros Hi Hret. unfold returns in Hret.
  assert (length (take i (tests net)) = i) as Hpre.
  { apply length_take_le. by eapply Nat.lt_le_incl, lookup_lt_Some. }
  remember (take i (tests net)) as pre eqn:Epre in *.
  remember (drop (S i) (tests net)) as post eqn:Epost in *.
  assert (pre ++ (name, f) :: post = tests net) as Hsplit
    by (subst pre post; apply take_drop_middle, Hi).
  unfold run_all_tests. rewrite <- Hsplit, run_tests_app.
  destruct (run_tests_total url key verbose pre (Results 0 0 []) s)
    as (ri & si & ds & Hrun & Hd & Hn & _).
  rewrite Hrun in Hret |- *. cbn [snd] in Hret. rewrite run_tests_cons.
  destruct (f url key verbose si) as [[ok'|e'] se]; cbn [fst] in Hret; [|done].
  injection Hret as ->.
  destruct (run_tests_total url key verbose post (record name ok ri) se)
    as (r' & s' & ds' & -> & Hd' & _).
  exists r', s'. split; [done|].
  cbn [details record] in Hd'. cbn in Hd.
  assert (length ds = i) as Hds by (by rewrite <- (length_map fst), Hn, length_map).
  rewrite Hd', Hd, <- app_assoc. rewrite lookup_app_r by lia.
  by replace (i - length ds)%nat with 0%nat by lia.
Qed.

(** The fourth scenario, missing-threadid, passes against the documented
    answer and is recorded as passed at index 3. *)
Lemma recorded_verdict_is_return_value_witness :
  exists r s',
    run_all_tests (answering thread_id_required) "url" "key" false initial = (Val r, s')
    /\ details r !! 3%nat = Some ("Missing threadId", true).
Proof.
  assert (tests (answering thread_id_required) !! 3%nat
          = Some ("Missing threadId",
                  test_missing_thread_id (answering thread_id_required)))
    as H1 by reflexivity.
  assert (returns (test_missing_thread_id (answering thread_id_required) "url" "key" false)
            (snd (run_tests "url" "key" false
                    (take 3 (tests (answering thread_id_required)))
                    (Results 0 0 []) initial)) true)
    as H2 by (vm_compute; reflexivity).
  exact (recorded_verdict_is_return_value _ _ _ _ _ _ _ _ _ H1 H2).
Defined.

(** ** The credential *)

(** [get_api_key] returns the value of API_KEY when it is set and not empty,
    and raises [EnvironmentError] exactly when it is unset or empty; it
    changes nothing. *)
Theorem get_api_key_spec environ s :
  (forall key, returns (get_api_key environ) s key
               <-> environ !! "API_KEY" = Some key /\ key <> "")
  /\ ((exists e, raises (get_api_key environ) s e)
      <-> environ !! "API_KEY" = None \/ environ !! "API_KEY" = Some "")
  /\ (forall e, raises (get_api_key environ) s e -> exn_class_of e = EnvironmentError)
  /\ snd (get_api_key environ s) = s.
Proof.
  split_and!.
  - intros key. apply get_api_key_returns.
  - unfold raises. rewrite get_api_key_run.
    destruct (env_truthy (environ !! "API_KEY")) eqn:Ht.
    + apply env_truthy_spec in Ht as (x & -> & Hne).
      split; [by intros [? ?]|]. intros [?|[= ->]]; done.
    + split; [intros _|by eexists].
      destruct (environ !! "API_KEY") as [x|]; [|by left]. right.
      cbn in Ht. apply negb_false_iff, String.eqb_eq in Ht. by subst.
  - unfold raises. rewrite get_api_key_run.
    destruct (env_truthy (environ !! "API_KEY")); [done|]. by intros e [= <-].
  - rewrite get_api_key_run. by destruct (env_truthy (environ !! "API_KEY")).
Qed.

(** ** What [main] reports *)

(** [main] looks for the credential first: without it the one line printed
    names API_KEY, whatever the URL variables hold; with it and without the
    URL of the chosen environment, the line names that environment's
    variable.  Either way nothing is sent. *)
Theorem main_names_the_missing_variable net environ a s :
  (environ !! "API_KEY" = None \/ environ !! "API_KEY" = Some "" ->
   main net environ a s
   = (Val 1,
      State (sent s)
        (out s ++ [[Lit "❌ Error: ";
                    Lit ("API_KEY environment variable is not set." +:+ nl +:+
                         "Set it with: export API_KEY=your_api_key")]])))
  /\ (forall key, environ !! "API_KEY" = Some key -> key <> "" ->
      environ !! url_variable (args_env a) = None
      \/ environ !! url_variable (args_env a) = Some "" ->
      exists hint,
        main net environ a s
        = (Val 1,
           State (sent s)
             (out s ++ [[Lit "❌ Error: ";
                         Lit (url_variable (args_env a)
                              +:+ " environment variable is not set." +:+ nl +:+ hint)]]))).
Proof.
  split.
  - intros Hk. unfold main. ev. rewrite get_api_key_run.
    assert (env_truthy (environ !! "API_KEY") = false) as ->
      by (by destruct Hk as [-> | ->]).
    by ev.
  - intros key Hk Hne Hu. unfold main. ev. rewrite get_api_key_run, Hk.
    apply String.eqb_neq in Hne. cbn [env_truthy]. rewrite Hne. cbn [negb]. ev.
    rewrite get_api_url_run. cbn zeta. fold (url_variable (args_env a)).
    assert (env_truthy (environ !! url_variable (args_env a)) = false) as ->
      by (by destruct Hu as [-> | ->]).
    ev. by eexists.
Qed.

(** With the credential and without any URL, the default environment. *)
Lemma main_names_the_missing_variable_witness :
  exists hint,
    main (answering forbidden) key_only_environ (Args "test" false "all") initial
    = (Val 1,
       State [] [[Lit "❌ Error: ";
                  Lit ("TEST_API_URL environment variable is not set." +:+ nl +:+ hint)]]).
Proof.
  destruct (proj2 (main_names_the_missing_variable (answering forbidden) key_only_environ
                     (Args "test" false "all") initial) "secret")
    as [hint H].
  - reflexivity.
  - discriminate.
  - by left.
  - by exists hint.
Defined.

(** ** Selecting a scenario *)

(** The value of [--test] at place [i] of its choices (after "all") selects
    the scenario at place [i] of the registry, and nothing else is in
    [test_map]; so [main] finds a scenario for every accepted value. *)
Theorem test_map_matches_registry net :
  (forall id f,
     test_map net !! id = Some f
     <-> exists i name, tail test_choices !! i = Some id
                        /\ tests net !! i = Some (name, f))
  /\ (forall id, id ∈ test_choices -> id <> "all" -> is_Some (test_map net !! id)).
Proof.
  assert (forall id f,
            test_map net !! id = Some f
            <-> exists i name, tail test_choices !! i = Some id
                               /\ tests net !! i = Some (name, f)) as Hmap.
  { intros id f. split.
    - unfold test_map. intros H.
      repeat (apply lookup_insert_Some in H as [[<- <-] | [_ H]];
              [ first [ by exists 0%nat; eexists | by exists 1%nat; eexists
                      | by exists 2%nat; eexists | by exists 3%nat; eexists
                      | by exists 4%nat; eexists | by exists 5%nat; eexists
                      | by exists 6%nat; eexists | by exists 7%nat; eexists ] |]).
      apply lookup_singleton_Some in H as [<- <-]. by exists 8%nat; eexists.
    - intros (i & name & Hi & Ht).
      do 9 (destruct i as [|i];
            [injection Hi as <-; injection Ht as _ <-; vm_compute; reflexivity|]).
      done. }
  split; [exact Hmap|].
  intros id Hin Hne. unfold test_choices in Hin.
  apply elem_of_cons in Hin as [->|Hin]; [done|].
  apply list_elem_of_lookup in Hin as [i Hi].
  assert (is_Some (tests net !! i)) as [[name f] Hf].
  { apply lookup_lt_is_Some. apply lookup_lt_Some in Hi. exact Hi. }
  exists f. apply Hmap. by exists i, name.
Qed.

Lemma test_map_scenarios net id f :
  test_map net !! id = Some f -> exists label, (f, label) ∈ scenarios net.
Proof.
  intros H. apply (proj1 (test_map_matches_registry net)) in H as (i & name & _ & Ht).
  apply (tests_are_scenarios net name). by eapply list_elem_of_lookup_2.
Qed.

(** The loop sends one request per entry when its entries do, each with the
    properties their requests have. *)
Lemma run_tests_sends url key verbose entries (P : request -> Prop) :
  (forall name f, (name, f) ∈ entries ->
     forall s, exists req lines,
       snd ((f : test_func) url key verbose s) = State (sent s ++ [req]) (out s ++ lines)
       /\ P req) ->
  forall r s,
  exists reqs,
    sent (snd (run_tests url key verbose entries r s)) = sent s ++ reqs
    /\ length reqs = length entries
    /\ Forall P reqs.
Proof.
  induction entries as [|[name f] rest IH]; intros Hf r s.
  - exists []. cbn. by rewrite app_nil_r.
  - rewrite run_tests_cons.
    destruct (Hf name f (list_elem_of_here _ _) s) as (req & lines & Hs & HP).
    assert (forall name f, (name, f) ∈ rest ->
              forall s, exists req lines,
                snd ((f : test_func) url key verbose s)
                = State (sent s ++ [req]) (out s ++ lines) /\ P req) as Hrest.
    { intros n g Hin. apply (Hf n g). by apply list_elem_of_further. }
    destruct (f url key verbose s) as [[ok|e] s1]; cbn [snd] in Hs; subst s1;
      match goal with |- context [run_tests _ _ _ _ ?r1 ?st] =>
        destruct (IH Hrest r1 st) as (reqs & -> & Hlen & HPs) end;
      cbn [sent]; rewrite <- app_assoc;
      exists (req :: reqs); (split_and!; [done | by cbn; rewrite Hlen | by constructor]).
Qed.

Lemma print_failed_lines ds s :
  print_failed ds s
  = (Val tt,
     State (sent s)
       (out s ++ map (fun name => [Lit "  - "; Lit name]) (failed_names ds))).
Proof.
  revert s. induction ds as [|[name ok] ds IH]; intros s.
  - cbn. rewrite app_nil_r. by destruct s.
  - cbn [print_failed]. destruct ok; cbn [negb]; ev; rewrite IH;
      unfold failed_names; cbn [List.filter negb snd map fst sent out].
    + done.
    + by rewrite <- app_assoc.
Qed.

Lemma failed_names_length ds : length (failed_names ds) = count_verdicts false ds.
Proof.
  unfold failed_names, count_verdicts. rewrite length_map.
  induction ds as [|[n b] ds IH]; [done|]. cbn. destruct b; cbn; by rewrite IH.
Qed.

Lemma run_all_tests_counts net url key verbose s :
  exists r s',
    run_all_tests net url key verbose s = (Val r, s')
    /\ failed r = count_verdicts false (details r)
    /\ (passed r + failed r = 9)%nat.
Proof.
  unfold run_all_tests.
  destruct (run_tests_total url key verbose (tests net) (Results 0 0 []) s)
    as (r & s' & ds & -> & Hd & Hn & Hp & Hq).
  cbn [details passed failed app Nat.add] in Hd, Hp, Hq.
  assert (length ds = 9%nat) as Hlen by (by rewrite <- (length_map fst), Hn).
  exists r, s'. rewrite Hd, Hp, Hq. split_and!; try done.
  rewrite <- Hlen. clear.
  induction ds as [|[n b] ds IH]; [done|].
  rewrite !count_verdicts_cons. cbn [length]. destruct b; cbn; lia.
Qed.

Section Configured.

Variables (net : network) (environ : gmap string string) (a : args) (s : state).
Variables (key url : string).
Hypothesis Hkey : returns (get_api_key environ) s key.
Hypothesis Hurl : returns (get_api_url environ (args_env a)) s url.

Lemma main_start :
  main net environ a s
  = (if String.eqb (args_test a) "all" then
       r <- run_all_tests net url key (args_verbose a) ;;
       print [Lit (nl +:+ str_repeat "=" 60)] ;;
       print [Lit "SUMMARY"] ;;
       print [Lit (str_repeat "=" 60)] ;;
       print [Lit "Passed: "; FInt (Z.of_nat (passed r))] ;;
       print [Lit "Failed: "; FInt (Z.of_nat (failed r))] ;;
       print [Lit "Total:  "; FInt (Z.of_nat (passed r + failed r))] ;;
       if (0 <? failed r)%nat then
         print [Lit (nl +:+ "Failed tests:")] ;;
         print_failed (details r) ;;
         ret 1
       else
         print [Lit (nl +:+ "✅ All tests passed!")] ;;
         ret 0
     else
       match test_map net !! args_test a with
       | None => raise (Exn KeyError ("'" +:+ args_test a +:+ "'"))
       | Some test_func =>
           ok <- (test_func url key (args_verbose a) : M bool) ;;
           ret (if ok : bool then 0 else 1)
       end)
      (State (sent s) (out s ++ banner a url)).
Proof using Hkey Hurl.
  apply get_api_key_returns in Hkey as [Hk Hkne].
  apply get_api_url_returns in Hurl as [Hu <-].
  unfold main. ev. rewrite get_api_key_run, Hk. cbn [env_truthy default].
  apply String.eqb_neq in Hkne. rewrite Hkne. cbn [negb]. ev.
  rewrite get_api_url_run. cbn zeta. fold (url_variable (args_env a)). rewrite Hu. ev.
  rewrite <- !app_assoc. cbn [app].
  fold (banner a (default "" (environ !! url_variable (args_env a)))).
  reflexivity.
Qed.

(** A full run ends with the summary: the counters, their total, which is
    always nine, and either "All tests passed" or the names of the failed
    scenarios, as many as the Failed counter says, in registry order.  The
    exit code is 1 iff a name is listed. *)
Theorem full_run_summary :
  args_test a = "all" ->
  exists r s1,
    run_all_tests net url key (args_verbose a) (State (sent s) (out s ++ banner a url))
    = (Val r, s1)
    /\ main net environ a s
       = (Val (if (0 <? failed r)%nat then 1 else 0),
          State (sent s1) (out s1 ++ summary r))
    /\ (passed r + failed r = 9)%nat
    /\ length (failed_names (details r)) = failed r.
Proof using Hkey Hurl.
  intros Hall. rewrite main_start, Hall. cbn [String.eqb Ascii.eqb Bool.eqb].
  destruct (run_all_tests_counts net url key (args_verbose a)
              (State (sent s) (out s ++ banner a url)))
    as (r & s1 & Hrun & Hf & Hsum).
  exists r, s1. split; [done|]. split_and!; [|done|by rewrite failed_names_length].
  ev. rewrite Hrun. ev. unfold summary.
  destruct (0 <? failed r)%nat; ev.
  - rewrite print_failed_lines. ev. f_equal. f_equal.
    rewrite <- !app_assoc. reflexivity.
  - f_equal. f_equal. rewrite <- !app_assoc. reflexivity.
Qed.

(** A full run sends nine requests and a single scenario one, all of them to
    the configured base URL and with the 30 second timeout; nothing else is
    sent. *)
Theorem main_requests :
  (args_test a = "all" ->
   exists reqs,
     sent (snd (main net environ a s)) = sent s ++ reqs
     /\ length reqs = 9%nat
     /\ Forall (fun r => req_url r = url /\ req_timeout r = 30) reqs)
  /\ (forall f, args_test a <> "all" -> test_map net !! args_test a = Some f ->
      exists req,
        sent (snd (main net environ a s)) = sent s ++ [req]
        /\ req_url req = url /\ req_timeout req = 30).
Proof using Hkey Hurl.
  split.
  - intros Hall. destruct (full_run_summary Hall) as (r & s1 & Hrun & -> & _).
    cbn [snd sent].
    destruct (run_tests_sends url key (args_verbose a) (tests net)
                (fun r => req_url r = url /\ req_timeout r = 30))
      with (r := Results 0 0 []) (s := State (sent s) (out s ++ banner a url))
      as (reqs & Hs & Hl & HP).
    { intros n g Hin s0. destruct (tests_are_scenarios net n g Hin) as [label Hlab].
      destruct (scenario_frame net url key (args_verbose a) s0 g label Hlab)
        as (req & lines & ? & ? & ?). by exists req, lines. }
    unfold run_all_tests in Hrun. rewrite Hrun in Hs. cbn [snd sent] in Hs.
    by exists reqs.
  - intros f Hne Hf. rewrite main_start. apply String.eqb_neq in Hne.
    rewrite Hne. unfold test_func in *. rewrite Hf. ev.
    destruct (test_map_scenarios net _ f Hf) as [label Hlab].
    destruct (scenario_frame net url key (args_verbose a)
                (State (sent s) (out s ++ banner a url)) f label Hlab)
      as (req & lines & Hs & ? & ?).
    exists req. destruct (f url key (args_verbose a) _) as [[ok|e] s1];
      cbn [snd] in Hs; subst s1; by cbn.
Qed.

End Configured.

Lemma full_run_summary_witness :
  exists r s1,
    run_all_tests (answering forbidden) "https://test.example" "secret" false
      (State [] (banner (Args "test" false "all") "https://test.example"))
    = (Val r, s1)
    /\ (passed r + failed r = 9)%nat
    /\ length (failed_names (details r)) = failed r.
Proof.
  assert (returns (get_api_key test_environ) initial "secret") as Rk
    by (vm_compute; reflexivity).
  assert (returns (get_api_url test_environ "test") initial "https://test.example") as Ru
    by (vm_compute; reflexivity).
  destruct (full_run_summary (answering forbidden) test_environ
              (Args "test" false "all") initial "secret" "https://test.example"
              Rk Ru eq_refl)
    as (r & s1 & H1 & _ & H2 & H3).
  exists r, s1. split_and!; assumption.
Defined.

Lemma main_requests_witness :
  exists reqs,
    sent (snd (main (answering forbidden) test_environ (Args "test" false "all") initial))
    = reqs
    /\ length reqs = 9%nat.
Proof.
  assert (returns (get_api_key test_environ) initial "secret") as Rk
    by (vm_compute; reflexivity).
  assert (returns (get_api_url test_environ "test") initial "https://test.example") as Ru
    by (vm_compute; reflexivity).
  destruct (proj1 (main_requests (answering forbidden) test_environ
                     (Args "test" false "all") initial "secret" "https://test.example"
                     Rk Ru) eq_refl)
    as (reqs & H1 & H2 & _).
  exists reqs. split; assumption.
Defined.
